(** * BrowserService: a shallow embedding of
      src/services/browser/browser.service.ts

    The service holds one nullable browser handle and an immutable
    configuration, and forwards every operation to an external
    browser-automation driver.  The driver is not part of the program: it is
    modelled as an oracle that, given the history of the calls made so far
    and the call at hand, either resolves or rejects.  Every theorem below is
    quantified over that oracle.

    [async]/[await] code is modelled sequentially: an operation runs to
    completion before the next one starts.  A disconnect the driver reports
    on its own is delivered between operations; the one that
    [browser.close()] causes is emitted inside that call, where the
    registered callback runs before [close] goes on. *)

From Stdlib Require Import String Ascii List ZArith Bool Lia DecimalString.
Import ListNotations.
Open Scope list_scope.
Open Scope string_scope.

(** ** JavaScript values the service handles *)

(** A JavaScript number as far as this program looks at it: it tests numbers
    for truthiness ([||]) and prints them in a template string.  [JsNum z]
    is the number with the integral value [z], that is, the double nearest
    to [z]; [JsNaN] is NaN.  Fractions and infinities are left out: they are
    truthy, like every [JsNum z] with [z] other than 0, and window sizes and
    millisecond counts are whole numbers. *)
Inductive JsNumber : Type :=
| JsNaN
| JsNum (z : Z).

(** Truthiness of a number: 0 and NaN are falsy. *)
Definition truthy (n : JsNumber) : bool :=
  match n with
  | JsNaN => false
  | JsNum z => negb (Z.eqb z 0)
  end.

(** The double nearest to a non-negative integer, ties to even.  Integers
    of at most 53 bits are doubles. *)
Definition roundToDouble (v : Z) : Z :=
  let bits := (Z.log2 v + 1)%Z in
  if (bits <=? 53)%Z then v
  else
    let shift := (bits - 53)%Z in
    let q := Z.shiftr v shift in
    let r := Z.land v (Z.ones shift) in
    let half := Z.shiftl 1 (shift - 1) in
    let q' := if (half <? r)%Z || ((r =? half)%Z && Z.odd q)
              then (q + 1)%Z else q in
    Z.shiftl q' shift.

(** Number of decimal digits of a non-negative integer. *)
Definition decimalDigits (v : Z) : Z :=
  Z.of_nat (String.length (NilZero.string_of_int (Z.to_int v))).

(** The decimal with [k] digits that reads back as the double [x] of [n0]
    digits, if there is one: [Some (s, n)] stands for [s * 10^(n-k)].  Of
    two such decimals the one closer to [x] is taken, the even one on a
    tie. *)
Definition shortestWith (x n0 k : Z) : option (Z * Z) :=
  let scale := (10 ^ (n0 - k))%Z in
  let lo := (x / scale)%Z in
  let hi := (lo + 1)%Z in
  let okLo := (roundToDouble (lo * scale) =? x)%Z in
  let okHi := (roundToDouble (hi * scale) =? x)%Z in
  let pickHi :=
    if (hi =? 10 ^ k)%Z then Some (1, n0 + 1)%Z else Some (hi, n0) in
  match okLo, okHi with
  | false, false => None
  | true, false => Some (lo, n0)
  | false, true => pickHi
  | true, true =>
      let dLo := (x - lo * scale)%Z in
      let dHi := (hi * scale - x)%Z in
      if (dLo <? dHi)%Z then Some (lo, n0)
      else if (dHi <? dLo)%Z then pickHi
      else if Z.even lo then Some (lo, n0) else pickHi
  end.

(** The shortest decimal that reads back as [x], trying [k], [k+1], ...
    digits; 17 digits always do. *)
Fixpoint shortestFrom (fuel : nat) (x n0 k : Z) : Z * Z :=
  match fuel with
  | O => (x, n0)
  | S fuel' =>
      if (n0 <? k)%Z then (x, n0)
      else
        match shortestWith x n0 k with
        | Some r => r
        | None => shortestFrom fuel' x n0 (k + 1)
        end
  end.

Fixpoint zeros (n : nat) : string :=
  match n with
  | O => ""
  | S n' => "0" ++ zeros n'
  end.

(** Strips the zeros a decimal ends with. *)
Fixpoint stripZeros (fuel : nat) (s : Z) : Z :=
  match fuel with
  | O => s
  | S fuel' => if (s mod 10 =? 0)%Z then stripZeros fuel' (s / 10) else s
  end.

(** [Number::toString] for a non-negative double with an integral value:
    below 2^53 its decimal digits; above, the shortest decimal that reads
    back as the same double, followed by zeros up to 21 digits and in
    exponent form from 1e21 on.  An integer beyond the largest double reads
    as Infinity. *)
Definition positiveToString (x : Z) : string :=
  if (x <? 2 ^ 53)%Z then NilZero.string_of_int (Z.to_int x)
  else if (2 ^ 1024 <=? x)%Z then "Infinity"
  else
    let (s0, n) := shortestFrom 17 x (decimalDigits x) 1 in
    let s := stripZeros 17 s0 in
    let digits := NilZero.string_of_int (Z.to_int s) in
    let k := Z.of_nat (String.length digits) in
    if (n <=? 21)%Z then digits ++ zeros (Z.to_nat (n - k))
    else
      let exponent := NilZero.string_of_int (Z.to_int (n - 1)) in
      match digits with
      | String c EmptyString => String c ("e+" ++ exponent)
      | String c rest => String c ("." ++ rest ++ "e+" ++ exponent)
      | EmptyString => ""
      end.

(** [`${n}`] for a number. *)
Definition numToString (n : JsNumber) : string :=
  match n with
  | JsNaN => "NaN"
  | JsNum z =>
      if (z <? 0)%Z then "-" ++ positiveToString (roundToDouble (- z))
      else positiveToString (roundToDouble z)
  end.

(** [a || b] where [a] is an optional number ([undefined] is falsy). *)
Definition orNumber (a : option JsNumber) (b : JsNumber) : JsNumber :=
  match a with
  | Some n => if truthy n then n else b
  | None => b
  end.

(** Classes of [Error] objects that occur. *)
Inductive ErrorClass : Type :=
| BrowserErrorClass
| OtherErrorClass.

(** A thrown JavaScript value: an instance of [Error] with its message, or
    any other value, of which only [String(value)] is observed. *)
Inductive Thrown : Type :=
| ErrorObject (cls : ErrorClass) (message : string)
| NonError (asString : string).

(** Modelled from the spec: [BrowserError] of core/utils/errors.js, which is
    not among the sources.  The spec describes a single error kind
    parameterized by a human-readable message; it is taken to be a subclass
    of [Error] whose [message] is the constructor's argument. *)
Definition BrowserError (message : string) : Thrown :=
  ErrorObject BrowserErrorClass message.

(** [error instanceof Error ? error.message : String(error)] *)
Definition errorText (error : Thrown) : string :=
  match error with
  | ErrorObject _ message => message
  | NonError s => s
  end.

(** ** Configuration *)

(** Modelled from the spec: the part of the server configuration that the
    constructor reads from [ConfigManager] (core/utils/config.js is not among
    the sources): headless flag, profile directory, window width/height,
    default timeout. *)
Record BrowserSection : Type := {
  sc_headless : bool;
  sc_windowWidth : JsNumber;
  sc_windowHeight : JsNumber;
  sc_defaultTimeout : JsNumber
}.

Record ServerConfig : Type := {
  sc_browser : BrowserSection;
  sc_chromeUserDataDir : string
}.

(** [IBrowserConfig], with the fields the constructor fills in. *)
Record IBrowserConfig : Type := {
  headless : bool;
  userDataDir : string;
  windowWidth : JsNumber;
  windowHeight : JsNumber;
  defaultTimeout : JsNumber
}.

(** ** The driver's interface *)

(** Opaque references handed out by the driver. *)
Definition Browser : Type := nat.
Definition Page : Type := nat.

Record Viewport : Type := {
  vp_width : JsNumber;
  vp_height : JsNumber
}.

Record LaunchOptions : Type := {
  lo_headless : bool;
  lo_channel : string;
  lo_userDataDir : string;
  lo_args : list string;
  lo_defaultViewport : Viewport
}.

Inductive LifeCycleEvent : Type :=
| load
| domcontentloaded
| networkidle0
| networkidle2.

(** Modelled from the spec: the type of a caller-supplied wait condition
    ([INavigationOptions] of types.js is not among the sources).  It is the
    driver's: one life-cycle event or an array of them.  Both are truthy
    values, so [x || 'networkidle0'] keeps a supplied condition. *)
Inductive WaitUntil : Type :=
| WaitOne (e : LifeCycleEvent)
| WaitAll (es : list LifeCycleEvent).

(** [INavigationOptions], with the two fields [navigateTo] reads; both are
    optional. *)
Record INavigationOptions : Type := {
  waitUntil : option WaitUntil;
  timeout : option JsNumber
}.

Record GoToOptions : Type := {
  go_waitUntil : WaitUntil;
  go_timeout : JsNumber
}.

(** The calls the service makes into the driver. *)
Inductive DriverCall : Type :=
| Launch (options : LaunchOptions)
| NewPage (b : Browser)
| CloseBrowser (b : Browser)
| SetViewport (p : Page) (v : Viewport)
| SetUserAgent (p : Page) (ua : string)
| SetDefaultTimeout (p : Page) (t : JsNumber)
| SetExtraHTTPHeaders (p : Page) (headers : list (string * string))
| Goto (p : Page) (url : string) (options : GoToOptions)
| WaitForSelector (p : Page) (selector : string) (t : JsNumber).

(** The driver as an oracle.  Each answer may depend on the whole history of
    calls.  [launch] and [newPage] resolve to a handle; the other calls
    resolve to nothing the service looks at, so only a rejection is
    reported.

    [browser.close()] disconnects the browser, and the driver may emit
    'disconnected' on it from inside the call: [drv_closeEmits] says whether
    it does.  The listeners then run before the call ends.  What the call
    ends with is still the driver's answer [drv_other]: a driver that lets
    the exception of a listener escape through [close], as an emitter that
    does not catch does, rejects the call with what the listener threw. *)
Record Driver : Type := {
  drv_launch : list DriverCall -> LaunchOptions -> Thrown + Browser;
  drv_newPage : list DriverCall -> Browser -> Thrown + Page;
  drv_other : list DriverCall -> DriverCall -> option Thrown;
  drv_closeEmits : list DriverCall -> Browser -> bool
}.

(** ** The world: the service object and what the driver has seen *)

(** The only listener the program registers is the closure of [initialize]
    on the event 'disconnected'. *)
Inductive Listener : Type :=
| DisconnectedHandler.

Record World : Type := {
  browser : option Browser;            (* this.browser *)
  config : IBrowserConfig;             (* this.config *)
  calls : list DriverCall;             (* driver calls so far, oldest first *)
  listeners : list (Browser * Listener); (* registered with [browser.on] *)
  listenerErrors : list Thrown         (* what listeners threw into the emitter *)
}.

Definition set_browser (b : option Browser) (w : World) : World :=
  {| browser := b; config := config w; calls := calls w;
     listeners := listeners w; listenerErrors := listenerErrors w |}.

Definition log_call (c : DriverCall) (w : World) : World :=
  {| browser := browser w; config := config w; calls := (calls w ++ [c])%list;
     listeners := listeners w; listenerErrors := listenerErrors w |}.

Definition add_listener (b : Browser) (l : Listener) (w : World) : World :=
  {| browser := browser w; config := config w; calls := calls w;
     listeners := (listeners w ++ [(b, l)])%list; listenerErrors := listenerErrors w |}.

Definition add_listenerError (e : Thrown) (w : World) : World :=
  {| browser := browser w; config := config w; calls := calls w;
     listeners := listeners w; listenerErrors := (listenerErrors w ++ [e])%list |}.

(** ** A state-and-exception monad for the method bodies *)

Inductive Result (A : Type) : Type :=
| Ok (a : A)
| Throw (e : Thrown).
Arguments Ok {A} a.
Arguments Throw {A} e.

Definition M (A : Type) : Type := World -> Result A * World.

Definition ret {A} (a : A) : M A := fun w => (Ok a, w).

Definition throw {A} (e : Thrown) : M A := fun w => (Throw e, w).

Definition bind {A B} (m : M A) (k : A -> M B) : M B :=
  fun w =>
    match m w with
    | (Ok a, w') => k a w'
    | (Throw e, w') => (Throw e, w')
    end.

(** [try { body } catch (error) { handler }] *)
Definition tryCatch {A} (body : M A) (handler : Thrown -> M A) : M A :=
  fun w =>
    match body w with
    | (Ok a, w') => (Ok a, w')
    | (Throw e, w') => handler e w'
    end.

Declare Scope js_scope.
Delimit Scope js_scope with js.
Notation "x <- m ;; k" := (bind m (fun x => k))
  (at level 61, m at next level, right associativity) : js_scope.
Notation "m ;; k" := (bind m (fun _ => k))
  (at level 61, right associativity) : js_scope.
Open Scope js_scope.

Definition getBrowser : M (option Browser) := fun w => (Ok (browser w), w).

Definition setBrowser (b : option Browser) : M unit :=
  fun w => (Ok tt, set_browser b w).

Definition getConfig : M IBrowserConfig := fun w => (Ok (config w), w).

(** ** The service *)

(** [constructor()]: the handle starts out null and the configuration is
    copied from the server configuration.  The driver has seen nothing
    yet. *)
Definition constructor (serverConfig : ServerConfig) : World :=
  {| browser := None;
     config :=
       {| headless := sc_headless (sc_browser serverConfig);
          userDataDir := sc_chromeUserDataDir serverConfig;
          windowWidth := sc_windowWidth (sc_browser serverConfig);
          windowHeight := sc_windowHeight (sc_browser serverConfig);
          defaultTimeout := sc_defaultTimeout (sc_browser serverConfig) |};
     calls := [];
     listeners := [];
     listenerErrors := [] |}.

(** The options object that [initialize] passes to [puppeteer.launch]. *)
Definition launchOptions (c : IBrowserConfig) : LaunchOptions :=
  {| lo_headless := true;
     lo_channel := "chrome";
     lo_userDataDir := userDataDir c;
     lo_args :=
       [ "--no-sandbox";
         "--disable-setuid-sandbox";
         "--window-size=" ++ numToString (windowWidth c) ++ ","
           ++ numToString (windowHeight c);
         "--disable-dev-shm-usage";
         "--disable-blink-features=AutomationControlled" ];
     lo_defaultViewport :=
       {| vp_width := windowWidth c; vp_height := windowHeight c |} |}.

Definition userAgent : string :=
  "Mozilla/5.0 (Macintosh; Intel Mac OS X 10_15_7) AppleWebKit/537.36 (KHTML, like Gecko) Chrome/120.0.0.0 Safari/537.36".

Definition extraHeaders : list (string * string) :=
  [ ("Accept-Language", "en-US,en;q=0.9") ].

(** The body of the 'disconnected' callback. *)
Definition runListener (l : Listener) : M unit :=
  match l with
  | DisconnectedHandler =>
      setBrowser None ;;
      throw (BrowserError "Browser disconnected unexpectedly")
  end.

(** ** Driver events *)

(** The emitter calls the listeners registered on [b] in registration
    order.  An error thrown by a listener is thrown into the emitter, which
    stops calling the remaining listeners; it is recorded, and what becomes
    of it is the driver's business. *)
Fixpoint emitDisconnected (ls : list (Browser * Listener)) (b : Browser)
         (w : World) : World :=
  match ls with
  | [] => w
  | (b', l) :: rest =>
      if Nat.eqb b' b then
        match runListener l w with
        | (Ok _, w') => emitDisconnected rest b w'
        | (Throw e, w') => add_listenerError e w'
        end
      else emitDisconnected rest b w
  end.

Definition fireDisconnected (b : Browser) (w : World) : World :=
  emitDisconnected (listeners w) b w.

Section Service.

Variable d : Driver.

(** *** Calls into the driver: each is recorded, then answered. *)

Definition puppeteer_launch (o : LaunchOptions) : M Browser :=
  fun w =>
    match drv_launch d (calls w) o with
    | inl e => (Throw e, log_call (Launch o) w)
    | inr b => (Ok b, log_call (Launch o) w)
    end.

Definition browser_newPage (b : Browser) : M Page :=
  fun w =>
    match drv_newPage d (calls w) b with
    | inl e => (Throw e, log_call (NewPage b) w)
    | inr p => (Ok p, log_call (NewPage b) w)
    end.

Definition driver_call (c : DriverCall) : M unit :=
  fun w =>
    match drv_other d (calls w) c with
    | Some e => (Throw e, log_call c w)
    | None => (Ok tt, log_call c w)
    end.

(** [browser.close()]: recorded, then the driver may emit 'disconnected' on
    the browser, which runs its listeners inside the call, then the call is
    answered. *)
Definition closeEffects (b : Browser) (w : World) : World :=
  if drv_closeEmits d (calls w) b
  then fireDisconnected b (log_call (CloseBrowser b) w)
  else log_call (CloseBrowser b) w.

Definition browser_close (b : Browser) : M unit :=
  fun w =>
    match drv_other d (calls w) (CloseBrowser b) with
    | Some e => (Throw e, closeEffects b w)
    | None => (Ok tt, closeEffects b w)
    end.

(** [browser.on('disconnected', l)]: registration with the emitter. *)
Definition browser_on (b : Browser) (l : Listener) : M unit :=
  fun w => (Ok tt, add_listener b l w).

(** *** The methods *)

Definition initialize : M unit :=
  tryCatch
    (this_browser <- getBrowser ;;
     match this_browser with
     | None =>
         c <- getConfig ;;
         b <- puppeteer_launch (launchOptions c) ;;
         setBrowser (Some b) ;;
         browser_on b DisconnectedHandler
     | Some _ => ret tt
     end)
    (fun error =>
       throw (BrowserError
                ("Failed to initialize browser: " ++ errorText error))).

Definition setupPage (page : Page) : M unit :=
  tryCatch
    (c <- getConfig ;;
     driver_call (SetViewport page
                    {| vp_width := windowWidth c;
                       vp_height := windowHeight c |}) ;;
     driver_call (SetUserAgent page userAgent) ;;
     driver_call (SetDefaultTimeout page (defaultTimeout c)) ;;
     driver_call (SetExtraHTTPHeaders page extraHeaders))
    (fun error =>
       throw (BrowserError
                ("Failed to setup page: " ++ errorText error))).

Definition getPage : M Page :=
  this_browser <- getBrowser ;;
  match this_browser with
  | None => throw (BrowserError "Browser not initialized")
  | Some b =>
      tryCatch
        (page <- browser_newPage b ;;
         setupPage page ;;
         ret page)
        (fun error =>
           throw (BrowserError
                    ("Failed to create new page: " ++ errorText error)))
  end.

Definition close : M unit :=
  this_browser <- getBrowser ;;
  match this_browser with
  | Some b =>
      tryCatch
        (browser_close b ;;
         setBrowser None)
        (fun error =>
           throw (BrowserError
                    ("Failed to close browser: " ++ errorText error)))
  | None => ret tt
  end.

(** [options?.waitUntil || 'networkidle0'] *)
Definition navWaitUntil (options : option INavigationOptions) : WaitUntil :=
  match options with
  | Some o =>
      match waitUntil o with
      | Some wu => wu
      | None => WaitOne networkidle0
      end
  | None => WaitOne networkidle0
  end.

(** [options?.timeout || this.config.defaultTimeout] *)
Definition navTimeout (options : option INavigationOptions)
           (c : IBrowserConfig) : JsNumber :=
  orNumber (match options with Some o => timeout o | None => None end)
           (defaultTimeout c).

Definition navigateTo (page : Page) (url : string)
           (options : option INavigationOptions) : M unit :=
  tryCatch
    (c <- getConfig ;;
     driver_call (Goto page url
                    {| go_waitUntil := navWaitUntil options;
                       go_timeout := navTimeout options c |}))
    (fun error =>
       throw (BrowserError
                ("Failed to navigate to " ++ url ++ ": "
                   ++ errorText error))).

Definition waitForSelector (page : Page) (selector : string)
           (timeout : option JsNumber) : M bool :=
  tryCatch
    (c <- getConfig ;;
     driver_call (WaitForSelector page selector
                    (orNumber timeout (defaultTimeout c))) ;;
     ret true)
    (fun _ => ret false).

(** *** Call sequences *)

(** What a client, or the driver, can do next.  [EventDisconnected] is a
    disconnect the driver reports on its own, between two calls of the
    service; the one that [browser.close()] causes is part of that call. *)
Inductive Step : Type :=
| CallInitialize
| CallGetPage
| CallClose
| CallNavigateTo (page : Page) (url : string)
                 (options : option INavigationOptions)
| CallWaitForSelector (page : Page) (selector : string)
                      (timeout : option JsNumber)
| EventDisconnected (b : Browser).

(** How a step ended, forgetting the value returned. *)
Inductive Completion : Type :=
| Returned
| Threw (e : Thrown).

Definition completion {A} (r : Result A) : Completion :=
  match r with
  | Ok _ => Returned
  | Throw e => Threw e
  end.

Definition runStep (s : Step) (w : World) : Completion * World :=
  match s with
  | CallInitialize => let (r, w') := initialize w in (completion r, w')
  | CallGetPage => let (r, w') := getPage w in (completion r, w')
  | CallClose => let (r, w') := close w in (completion r, w')
  | CallNavigateTo p u o =>
      let (r, w') := navigateTo p u o w in (completion r, w')
  | CallWaitForSelector p s t =>
      let (r, w') := waitForSelector p s t w in (completion r, w')
  | EventDisconnected b => (Returned, fireDisconnected b w)
  end.

(** Runs the steps in order; returns how each ended and the final world. *)
Fixpoint runSteps (ss : list Step) (w : World)
  : list (Step * Completion) * World :=
  match ss with
  | [] => ([], w)
  | s :: rest =>
      let (c, w') := runStep s w in
      let (log, w'') := runSteps rest w' in
      ((s, c) :: log, w'')
  end.

(** Did some [initialize] of the run return normally? *)
Definition isSuccessfulInitialize (entry : Step * Completion) : bool :=
  match entry with
  | (CallInitialize, Returned) => true
  | _ => false
  end.

Definition someInitializeSucceeded (log : list (Step * Completion)) : bool :=
  existsb isSuccessfulInitialize log.

Definition isLaunch (c : DriverCall) : bool :=
  match c with
  | Launch _ => true
  | _ => false
  end.

(** Number of launches among the driver calls. *)
Definition launchCount (cs : list DriverCall) : nat :=
  length (filter isLaunch cs).

Definition isCloseBrowser (c : DriverCall) : bool :=
  match c with
  | CloseBrowser _ => true
  | _ => false
  end.

End Service.

(** ** Reading the outcome of a run *)

(** The world after the given driver calls were recorded in order. *)
Definition log_calls (cs : list DriverCall) (w : World) : World :=
  fold_left (fun acc c => log_call c acc) cs w.

(** The driver's answers to a list of calls that resolve to nothing: the
    calls are made in order until one is rejected.  [None] when all resolve;
    otherwise the calls made, the rejected one last, and what was thrown. *)
Fixpoint firstRejection (d : Driver) (history : list DriverCall)
         (cs : list DriverCall) : option (list DriverCall * Thrown) :=
  match cs with
  | [] => None
  | c :: rest =>
      match drv_other d history c with
      | Some e => Some ([c], e)
      | None =>
          match firstRejection d (history ++ [c])%list rest with
          | Some (made, e) => Some (c :: made, e)
          | None => None
          end
      end
  end.

(** The creation-time configuration of a page, as driver calls. *)
Definition pageSetupCalls (c : IBrowserConfig) (p : Page) : list DriverCall :=
  [ SetViewport p {| vp_width := windowWidth c; vp_height := windowHeight c |};
    SetUserAgent p userAgent;
    SetDefaultTimeout p (defaultTimeout c);
    SetExtraHTTPHeaders p extraHeaders ].

(** [says needle msg]: the message contains the needle. *)
Definition says (needle msg : string) : bool :=
  match index 0 needle msg with
  | Some _ => true
  | None => false
  end.

(** Steps that can clear the handle of an initialized service. *)
Definition isCloseOrDisconnect (s : Step) : bool :=
  match s with
  | CallClose => true
  | EventDisconnected _ => true
  | _ => false
  end.

(** The world right after the 'disconnected' callback ran. *)
Definition disconnectedWorld (w : World) : World :=
  add_listenerError (BrowserError "Browser disconnected unexpectedly")
    (set_browser None w).

(** What one step does to the handle, to the listeners and to the number of
    launches: it keeps the handle, clears it (a close or a disconnect), fails
    to launch, or launches. *)
Inductive StepEffect (s : Step) (c : Completion) (w w' : World) : Prop :=
| Kept :
    browser w' = browser w -> listeners w' = listeners w ->
    launchCount (calls w') = launchCount (calls w) ->
    StepEffect s c w w'
| Cleared :
    isCloseOrDisconnect s = true ->
    browser w' = None -> listeners w' = listeners w ->
    launchCount (calls w') = launchCount (calls w) ->
    StepEffect s c w w'
| LaunchFailed :
    s = CallInitialize -> c <> Returned ->
    browser w = None -> browser w' = None ->
    listeners w' = listeners w ->
    StepEffect s c w w'
| Launched (b : Browser) :
    s = CallInitialize -> c = Returned ->
    browser w = None -> browser w' = Some b ->
    listeners w' = (listeners w ++ [(b, DisconnectedHandler)])%list ->
    launchCount (calls w') = S (launchCount (calls w)) ->
    StepEffect s c w w'.

(** Every handle the service holds has the disconnect callback registered
    on it. *)
Definition registered (w : World) : Prop :=
  forall b, browser w = Some b -> In (b, DisconnectedHandler) (listeners w).

(** ** Sample configurations and drivers *)

Definition sampleServerConfig : ServerConfig :=
  {| sc_browser :=
       {| sc_headless := false;
          sc_windowWidth := JsNum 1280;
          sc_windowHeight := JsNum 800;
          sc_defaultTimeout := JsNum 30000 |};
     sc_chromeUserDataDir := "/tmp/chrome-profile" |}.

(** A driver on which every call resolves and no event is emitted inside a
    call; handles are numbered by the position of the call that created
    them. *)
Definition steadyDriver : Driver :=
  {| drv_launch := fun history _ => inr (length history);
     drv_newPage := fun history _ => inr (length history);
     drv_other := fun _ _ => None;
     drv_closeEmits := fun _ _ => false |}.

(** A driver whose first launch is rejected and whose later ones resolve. *)
Definition launchFailsOnceDriver : Driver :=
  {| drv_launch := fun history _ =>
       match history with
       | [] => inl (ErrorObject OtherErrorClass "Could not find Chrome")
       | _ => inr (length history)
       end;
     drv_newPage := fun history _ => inr (length history);
     drv_other := fun _ _ => None;
     drv_closeEmits := fun _ _ => false |}.

(** A driver that rejects [browser.close()] and selector waits. *)
Definition stubbornDriver : Driver :=
  {| drv_launch := fun history _ => inr (length history);
     drv_newPage := fun history _ => inr (length history);
     drv_other := fun _ c =>
       match c with
       | CloseBrowser _ =>
           Some (ErrorObject OtherErrorClass "Protocol error: Target closed")
       | WaitForSelector _ _ _ => Some (NonError "timeout")
       | _ => None
       end;
     drv_closeEmits := fun _ _ => false |}.

(** A driver whose [browser.close()] emits 'disconnected' from inside the
    call and lets the exception of the listener escape: the call is rejected
    with what the disconnect callback throws. *)
Definition disconnectingDriver : Driver :=
  {| drv_launch := fun history _ => inr (length history);
     drv_newPage := fun history _ => inr (length history);
     drv_other := fun _ c =>
       match c with
       | CloseBrowser _ =>
           Some (BrowserError "Browser disconnected unexpectedly")
       | _ => None
       end;
     drv_closeEmits := fun _ _ => true |}.

(** ** Reading runs: messages, calls and events *)

(** The message of the error a method throws when the driver call it wraps
    fails with the given error text. *)
Definition failureMessage (s : Step) (text : string) : string :=
  match s with
  | CallInitialize => "Failed to initialize browser: " ++ text
  | CallGetPage => "Failed to create new page: " ++ text
  | CallClose => "Failed to close browser: " ++ text
  | CallNavigateTo _ url _ => "Failed to navigate to " ++ url ++ ": " ++ text
  | CallWaitForSelector _ _ _ => text
  | EventDisconnected _ => text
  end.

(** Methods that can throw. *)
Definition canThrow (s : Step) : bool :=
  match s with
  | CallWaitForSelector _ _ _ => false
  | EventDisconnected _ => false
  | _ => true
  end.

(** What a driver call made from state [w] looks like: a launch happens
    without a handle and with the options of the configuration; pages are
    created and the browser is closed on the handle held; a page is set up
    with the values of the configuration; a wait carries a truthy timeout
    when the configured default is truthy. *)
Definition stepCallOk (w : World) (c : DriverCall) : Prop :=
  match c with
  | Launch o => o = launchOptions (config w) /\ browser w = None
  | NewPage b => browser w = Some b
  | CloseBrowser b => browser w = Some b
  | SetViewport _ v =>
      v = {| vp_width := windowWidth (config w);
             vp_height := windowHeight (config w) |}
  | SetUserAgent _ ua => ua = userAgent
  | SetDefaultTimeout _ t => t = defaultTimeout (config w)
  | SetExtraHTTPHeaders _ headers => headers = extraHeaders
  | Goto _ _ o =>
      truthy (defaultTimeout (config w)) = true ->
      truthy (go_timeout o) = true
  | WaitForSelector _ _ t =>
      truthy (defaultTimeout (config w)) = true -> truthy t = true
  end.

(** The browser a call is made on, for the calls made on a browser. *)
Definition callBrowser (c : DriverCall) : option Browser :=
  match c with
  | NewPage b => Some b
  | CloseBrowser b => Some b
  | _ => None
  end.

(** The timeout a call carries, for the calls that wait. *)
Definition callTimeout (c : DriverCall) : option JsNumber :=
  match c with
  | Goto _ _ o => Some (go_timeout o)
  | WaitForSelector _ _ t => Some t
  | _ => None
  end.

(** Unfolds the monad and the driver calls in a method body. *)
Ltac run_monad :=
  cbv beta iota delta
    [bind tryCatch ret throw getBrowser setBrowser getConfig
     puppeteer_launch browser_newPage driver_call browser_close
     browser_on].

(** ** Sanity checks of the model on concrete runs *)

Example numToString_1280 : numToString (JsNum 1280) = "1280".
Proof. reflexivity. Qed.

Example numToString_large :
  numToString (JsNum (2 ^ 64)) = "18446744073709552000"
  /\ numToString (JsNum (10 ^ 21)) = "1e+21"
  /\ numToString (JsNum (2 ^ 70)) = "1.1805916207174113e+21"
  /\ numToString (JsNum (- 2 ^ 100)) = "-1.2676506002282294e+30".
Proof. vm_compute. repeat split. Qed.

Example launch_args_sample :
  lo_args (launchOptions (config (constructor sampleServerConfig))) =
  [ "--no-sandbox"; "--disable-setuid-sandbox"; "--window-size=1280,800";
    "--disable-dev-shm-usage";
    "--disable-blink-features=AutomationControlled" ].
Proof. reflexivity. Qed.

Example says_not_initialized :
  says "not initialized" "Browser not initialized" = true
  /\ says "not initialized" "Failed to close browser: x" = false.
Proof. split; reflexivity. Qed.

Example session_on_steady_driver :
  let run := runSteps steadyDriver
               [CallInitialize; CallGetPage; CallClose; CallGetPage]
               (constructor sampleServerConfig) in
  map snd (fst run) =
    [Returned; Returned; Returned;
     Threw (BrowserError "Browser not initialized")]
  /\ browser (snd run) = None
  /\ length (calls (snd run)) = 7%nat.
Proof. vm_compute. repeat split. Qed.

Example session_on_disconnecting_driver :
  let run := runSteps disconnectingDriver
               [CallInitialize; CallClose; CallGetPage]
               (constructor sampleServerConfig) in
  map snd (fst run) =
    [Returned;
     Threw (BrowserError
              "Failed to close browser: Browser disconnected unexpectedly");
     Threw (BrowserError "Browser not initialized")]
  /\ browser (snd run) = None
  /\ listenerErrors (snd run) =
       [BrowserError "Browser disconnected unexpectedly"].
Proof. vm_compute. repeat split. Qed.

Example wait_on_stubborn_driver :
  fst (waitForSelector stubbornDriver 3 "#login" None
         (constructor sampleServerConfig)) = Ok false.
Proof. reflexivity. Qed.

(** ** Equations of the methods

    Each method is characterised by the driver's answers.  The remaining
    proofs rewrite with these equations instead of unfolding the monad. *)

Section Equations.

Variable d : Driver.

Lemma initialize_with_handle (w : World) (b : Browser) :
  browser w = Some b -> initialize d w = (Ok tt, w).
Proof.
  intros Hb. unfold initialize. run_monad. rewrite Hb. reflexivity.
Qed.

Lemma initialize_launch_resolved (w : World) (b : Browser) :
  browser w = None ->
  drv_launch d (calls w) (launchOptions (config w)) = inr b ->
  initialize d w =
    (Ok tt,
     add_listener b DisconnectedHandler
       (set_browser (Some b)
          (log_call (Launch (launchOptions (config w))) w))).
Proof.
  intros Hb Hl. unfold initialize. run_monad. rewrite Hb, Hl. reflexivity.
Qed.

Lemma initialize_launch_rejected (w : World) (e : Thrown) :
  browser w = None ->
  drv_launch d (calls w) (launchOptions (config w)) = inl e ->
  initialize d w =
    (Throw (BrowserError ("Failed to initialize browser: " ++ errorText e)),
     log_call (Launch (launchOptions (config w))) w).
Proof.
  intros Hb Hl. unfold initialize. run_monad. rewrite Hb, Hl. reflexivity.
Qed.

Lemma getPage_without_handle (w : World) :
  browser w = None ->
  getPage d w = (Throw (BrowserError "Browser not initialized"), w).
Proof.
  intros Hb. unfold getPage. run_monad. rewrite Hb. reflexivity.
Qed.

Lemma close_without_handle (w : World) :
  browser w = None -> close d w = (Ok tt, w).
Proof.
  intros Hb. unfold close. run_monad. rewrite Hb. reflexivity.
Qed.

Lemma close_resolved (w : World) (b : Browser) :
  browser w = Some b ->
  drv_other d (calls w) (CloseBrowser b) = None ->
  close d w = (Ok tt, set_browser None (closeEffects d b w)).
Proof.
  intros Hb Hc. unfold close. run_monad. rewrite Hb, Hc. reflexivity.
Qed.

Lemma close_rejected (w : World) (b : Browser) (e : Thrown) :
  browser w = Some b ->
  drv_other d (calls w) (CloseBrowser b) = Some e ->
  close d w =
    (Throw (BrowserError ("Failed to close browser: " ++ errorText e)),
     closeEffects d b w).
Proof.
  intros Hb Hc. unfold close. run_monad. rewrite Hb, Hc. reflexivity.
Qed.

(** [setupPage] makes the four configuration calls until one is
    rejected. *)
Lemma setupPage_eq (w : World) (p : Page) :
  setupPage d p w =
    match firstRejection d (calls w) (pageSetupCalls (config w) p) with
    | None => (Ok tt, log_calls (pageSetupCalls (config w) p) w)
    | Some (made, e) =>
        (Throw (BrowserError ("Failed to setup page: " ++ errorText e)),
         log_calls made w)
    end.
Proof.
  unfold setupPage, pageSetupCalls. run_monad.
  cbn [firstRejection log_calls fold_left].
  destruct (drv_other d (calls w) _) as [e1|]; [reflexivity|].
  cbn [calls log_call config].
  destruct (drv_other d (calls w ++ [_])%list (SetUserAgent p userAgent))
    as [e2|]; [reflexivity|].
  cbn [calls log_call config].
  destruct (drv_other d ((calls w ++ [_]) ++ [_])%list
              (SetDefaultTimeout p _)) as [e3|]; [reflexivity|].
  cbn [calls log_call config].
  destruct (drv_other d (((calls w ++ [_]) ++ [_]) ++ [_])%list
              (SetExtraHTTPHeaders p extraHeaders)) as [e4|]; reflexivity.
Qed.

Lemma getPage_eq (w : World) (b : Browser) :
  browser w = Some b ->
  getPage d w =
    match drv_newPage d (calls w) b with
    | inl e =>
        (Throw (BrowserError ("Failed to create new page: " ++ errorText e)),
         log_call (NewPage b) w)
    | inr p =>
        match firstRejection d (calls w ++ [NewPage b])%list
                (pageSetupCalls (config w) p) with
        | None =>
            (Ok p, log_calls (NewPage b :: pageSetupCalls (config w) p) w)
        | Some (made, e) =>
            (Throw (BrowserError
                      ("Failed to create new page: Failed to setup page: "
                         ++ errorText e)),
             log_calls (NewPage b :: made) w)
        end
    end.
Proof.
  intros Hb. unfold getPage.
  cbv beta iota delta [bind tryCatch ret throw getBrowser browser_newPage].
  rewrite Hb.
  destruct (drv_newPage d (calls w) b) as [e|p]; [reflexivity|].
  rewrite setupPage_eq. cbn [calls log_call config].
  destruct (firstRejection d _ _) as [[made e]|]; reflexivity.
Qed.

Lemma navigateTo_eq (w : World) (p : Page) (url : string)
      (options : option INavigationOptions) :
  let call := Goto p url {| go_waitUntil := navWaitUntil options;
                            go_timeout := navTimeout options (config w) |} in
  navigateTo d p url options w =
    (match drv_other d (calls w) call with
     | None => Ok tt
     | Some e =>
         Throw (BrowserError
                  ("Failed to navigate to " ++ url ++ ": " ++ errorText e))
     end,
     log_call call w).
Proof.
  intros call. unfold navigateTo. run_monad. fold call.
  destruct (drv_other d (calls w) call); reflexivity.
Qed.

Lemma waitForSelector_eq (w : World) (p : Page) (selector : string)
      (t : option JsNumber) :
  let call := WaitForSelector p selector
                (orNumber t (defaultTimeout (config w))) in
  waitForSelector d p selector t w =
    (Ok (match drv_other d (calls w) call with
         | None => true
         | Some _ => false
         end),
     log_call call w).
Proof.
  intros call. unfold waitForSelector. run_monad. fold call.
  destruct (drv_other d (calls w) call); reflexivity.
Qed.

End Equations.

(** ** Frame properties *)

Lemma log_calls_fields (cs : list DriverCall) (w : World) :
  browser (log_calls cs w) = browser w
  /\ config (log_calls cs w) = config w
  /\ listeners (log_calls cs w) = listeners w
  /\ listenerErrors (log_calls cs w) = listenerErrors w
  /\ calls (log_calls cs w) = (calls w ++ cs)%list.
Proof.
  revert w. induction cs as [|c cs IH]; intros w; cbn [log_calls fold_left].
  - rewrite app_nil_r. repeat split.
  - destruct (IH (log_call c w)) as (Hb & Hc & Hl & Hu & Hcs).
    unfold log_calls in *. rewrite Hb, Hc, Hl, Hu, Hcs.
    cbn [browser config listeners listenerErrors calls log_call].
    rewrite <- app_assoc. repeat split.
Qed.

(** The calls made before a rejection are an initial segment of the calls
    asked for. *)
Lemma firstRejection_prefix (d : Driver) (cs : list DriverCall) :
  forall history made e,
    firstRejection d history cs = Some (made, e) ->
    exists rest, cs = (made ++ rest)%list /\ made <> [].
Proof.
  induction cs as [|c cs IH]; intros history made e H; cbn in H.
  - discriminate.
  - destruct (drv_other d history c) as [e1|].
    + inversion H; subst. exists cs. split; [reflexivity | discriminate].
    + destruct (firstRejection d (history ++ [c])%list cs) as [[m e2]|] eqn:E;
        [|discriminate].
      inversion H; subst. destruct (IH _ _ _ E) as (rest & -> & _).
      exists rest. split; [reflexivity | discriminate].
Qed.

Lemma launchCount_app (xs ys : list DriverCall) :
  launchCount (xs ++ ys) = (launchCount xs + launchCount ys)%nat.
Proof. unfold launchCount. rewrite filter_app, length_app. reflexivity. Qed.

Lemma launchCount_pageSetup_prefix (c : IBrowserConfig) (p : Page)
      (made rest : list DriverCall) :
  pageSetupCalls c p = (made ++ rest)%list -> launchCount made = 0%nat.
Proof.
  intros H.
  assert (L : launchCount (pageSetupCalls c p) = 0%nat) by reflexivity.
  rewrite H, launchCount_app in L. lia.
Qed.

(** ** The 'disconnected' event *)

Lemma runListener_eq (l : Listener) (w : World) :
  runListener l w =
    (Throw (BrowserError "Browser disconnected unexpectedly"),
     set_browser None w).
Proof. destruct l. reflexivity. Qed.

Lemma emitDisconnected_registered (ls : list (Browser * Listener))
      (b : Browser) (l : Listener) (w : World) :
  In (b, l) ls -> emitDisconnected ls b w = disconnectedWorld w.
Proof.
  induction ls as [|[b' l'] ls IH]; intros Hin; cbn [emitDisconnected].
  - destruct Hin.
  - destruct (Nat.eqb_spec b' b) as [->|Hne].
    + rewrite runListener_eq. reflexivity.
    + destruct Hin as [Heq|Hin]; [congruence | auto].
Qed.

Lemma emitDisconnected_cases (ls : list (Browser * Listener)) (b : Browser)
      (w : World) :
  emitDisconnected ls b w = w
  \/ emitDisconnected ls b w = disconnectedWorld w.
Proof.
  induction ls as [|[b' l'] ls IH]; cbn [emitDisconnected].
  - now left.
  - destruct (Nat.eqb b' b); [|exact IH].
    rewrite runListener_eq. now right.
Qed.

(** What the driver's part of [close] does to the world: the call is
    recorded, and the handle is kept or, when 'disconnected' was emitted
    inside the call, cleared. *)
Lemma closeEffects_cases (d : Driver) (b : Browser) (w : World) :
  closeEffects d b w = log_call (CloseBrowser b) w
  \/ drv_closeEmits d (calls w) b = true
     /\ closeEffects d b w = disconnectedWorld (log_call (CloseBrowser b) w).
Proof.
  unfold closeEffects, fireDisconnected.
  destruct (drv_closeEmits d (calls w) b); [|now left].
  destruct (emitDisconnected_cases
              (listeners (log_call (CloseBrowser b) w)) b
              (log_call (CloseBrowser b) w)) as [->| ->]; auto.
Qed.

Lemma closeEffects_silent (d : Driver) (b : Browser) (w : World) :
  drv_closeEmits d (calls w) b = false ->
  closeEffects d b w = log_call (CloseBrowser b) w.
Proof. intros H. unfold closeEffects. rewrite H. reflexivity. Qed.

Lemma closeEffects_emitted (d : Driver) (b : Browser) (l : Listener)
      (w : World) :
  drv_closeEmits d (calls w) b = true ->
  In (b, l) (listeners w) ->
  closeEffects d b w = disconnectedWorld (log_call (CloseBrowser b) w).
Proof.
  intros H Hin. unfold closeEffects, fireDisconnected. rewrite H.
  now apply (emitDisconnected_registered _ b l).
Qed.

(** ** What one step does to the handle and to the listeners *)

Lemma launchCount_log_other (c : DriverCall) (w : World) :
  isLaunch c = false ->
  launchCount (calls (log_call c w)) = launchCount (calls w).
Proof.
  intros H. cbn [calls log_call]. rewrite launchCount_app.
  unfold launchCount at 2. cbn [filter]. rewrite H. cbn. lia.
Qed.

(** [getPage] touches neither the handle nor the listeners and launches
    nothing. *)
Lemma getPage_frame (d : Driver) (w : World) :
  browser (snd (getPage d w)) = browser w
  /\ listeners (snd (getPage d w)) = listeners w
  /\ launchCount (calls (snd (getPage d w))) = launchCount (calls w).
Proof.
  case_eq (browser w); [intros b Hb | intros Hb].
  - rewrite (getPage_eq d w b Hb).
    destruct (drv_newPage d (calls w) b) as [e|p].
    + cbn [snd]. split; [exact Hb | split; [reflexivity|]].
      now apply launchCount_log_other.
    + destruct (firstRejection d _ _) as [[made e]|] eqn:E; cbn [snd];
        match goal with
        | |- browser (log_calls ?cs _) = _ /\ _ =>
            destruct (log_calls_fields cs w) as (Fb & _ & Fl & _ & Fc)
        end;
        rewrite Fb, Fl, Fc, launchCount_app;
        (split; [exact Hb | split; [reflexivity|]]).
      * destruct (firstRejection_prefix _ _ _ _ _ E) as (rest & Hp & _).
        change (launchCount (NewPage b :: made)) with (launchCount made).
        rewrite (launchCount_pageSetup_prefix _ _ _ _ Hp). lia.
      * cbn. lia.
  - rewrite (getPage_without_handle d w Hb). cbn [snd]. auto.
Qed.

Lemma runStep_effect (d : Driver) (s : Step) (w : World) :
  forall c w', runStep d s w = (c, w') -> StepEffect s c w w'.
Proof.
  intros c w' H. destruct s; cbn [runStep] in H.
  - (* initialize *)
    destruct (browser w) as [b|] eqn:Hb.
    + rewrite (initialize_with_handle d w b Hb) in H.
      inversion H; subst. now apply Kept.
    + destruct (drv_launch d (calls w) (launchOptions (config w)))
        as [e|b] eqn:Hl.
      * rewrite (initialize_launch_rejected d w e Hb Hl) in H.
        inversion H; subst. apply LaunchFailed; auto. discriminate.
      * rewrite (initialize_launch_resolved d w b Hb Hl) in H.
        inversion H; subst. apply (Launched _ _ _ _ b); auto.
        cbn [calls add_listener set_browser log_call].
        rewrite launchCount_app. cbn. lia.
  - (* getPage *)
    destruct (getPage_frame d w) as (Fb & Fl & Fc).
    destruct (getPage d w) as [r w1]. cbn [snd] in Fb, Fl, Fc.
    inversion H; subst. now apply Kept.
  - (* close *)
    destruct (browser w) as [b|] eqn:Hb.
    + destruct (drv_other d (calls w) (CloseBrowser b)) as [e|] eqn:Hc.
      * rewrite (close_rejected d w b e Hb Hc) in H.
        inversion H; subst.
        destruct (closeEffects_cases d b w) as [->|[_ ->]].
        -- apply Kept; auto. now apply launchCount_log_other.
        -- apply Cleared; auto.
           apply (launchCount_log_other (CloseBrowser b) w). reflexivity.
      * rewrite (close_resolved d w b Hb Hc) in H.
        inversion H; subst.
        destruct (closeEffects_cases d b w) as [->|[_ ->]];
          apply Cleared; auto;
          apply (launchCount_log_other (CloseBrowser b) w); reflexivity.
    + rewrite (close_without_handle d w Hb) in H.
      inversion H; subst. now apply Kept.
  - (* navigateTo *)
    rewrite navigateTo_eq in H. inversion H; subst.
    apply Kept; auto. now apply launchCount_log_other.
  - (* waitForSelector *)
    rewrite waitForSelector_eq in H. inversion H; subst.
    apply Kept; auto. now apply launchCount_log_other.
  - (* disconnected *)
    inversion H; subst. unfold fireDisconnected.
    destruct (emitDisconnected_cases (listeners w) b w) as [->| ->].
    + now apply Kept.
    + now apply Cleared.
Qed.

(** ** Invariants of call sequences *)

Lemma runSteps_cons (d : Driver) (s : Step) (ss : list Step) (w : World) :
  runSteps d (s :: ss) w =
    ((s, fst (runStep d s w)) :: fst (runSteps d ss (snd (runStep d s w))),
     snd (runSteps d ss (snd (runStep d s w)))).
Proof.
  cbn [runSteps]. destruct (runStep d s w) as [c w1]. cbn [fst snd].
  destruct (runSteps d ss w1). reflexivity.
Qed.

(** Without a successful [initialize] the handle stays null. *)
Lemma no_initialize_keeps_null (d : Driver) (ss : list Step) :
  forall w,
    browser w = None ->
    someInitializeSucceeded (fst (runSteps d ss w)) = false ->
    browser (snd (runSteps d ss w)) = None.
Proof.
  induction ss as [|s ss IH]; intros w Hb Hno.
  - exact Hb.
  - rewrite runSteps_cons in *. cbn [fst snd] in *.
    unfold someInitializeSucceeded in Hno. cbn [existsb] in Hno.
    apply orb_false_iff in Hno. destruct Hno as [Hs Hrest].
    apply IH; [|exact Hrest].
    destruct (runStep d s w) as [c w1] eqn:E. cbn [fst snd] in *.
    destruct (runStep_effect d s w c w1 E)
      as [Kb _ _ | _ Kb _ _ | _ _ _ Kb _ | b Ks Kc _ _ _ _].
    + congruence.
    + exact Kb.
    + exact Kb.
    + subst. discriminate.
Qed.

(** The disconnect callback is registered on every handle the service
    holds. *)
Lemma runStep_registered (d : Driver) (s : Step) (w : World) :
  registered w -> registered (snd (runStep d s w)).
Proof.
  intros R. destruct (runStep d s w) as [c w1] eqn:E. cbn [snd].
  destruct (runStep_effect d s w c w1 E)
    as [Kb Kl _ | _ Kb _ _ | _ _ _ Kb _ | b _ _ _ Kb Kl _];
    intros b' Hb'.
  - rewrite Kl. apply R. congruence.
  - congruence.
  - congruence.
  - rewrite Kl. apply in_or_app. right. left. congruence.
Qed.

Lemma runSteps_registered (d : Driver) (ss : list Step) :
  forall w, registered w -> registered (snd (runSteps d ss w)).
Proof.
  induction ss as [|s ss IH]; intros w R.
  - exact R.
  - rewrite runSteps_cons. cbn [snd]. apply IH. now apply runStep_registered.
Qed.

Lemma constructor_registered (sc : ServerConfig) : registered (constructor sc).
Proof. intros b Hb. discriminate. Qed.

(** While neither [close] nor a disconnect happens, an existing handle stays
    and nothing is launched. *)
Lemma handle_kept (d : Driver) (ss : list Step) :
  forall w b,
    browser w = Some b ->
    existsb isCloseOrDisconnect ss = false ->
    browser (snd (runSteps d ss w)) = Some b
    /\ launchCount (calls (snd (runSteps d ss w))) = launchCount (calls w).
Proof.
  induction ss as [|s ss IH]; intros w b Hb Hno.
  - split; [exact Hb | reflexivity].
  - rewrite runSteps_cons. cbn [snd]. cbn [existsb] in Hno.
    apply orb_false_iff in Hno. destruct Hno as [Hs Hrest].
    destruct (runStep d s w) as [c w1] eqn:E. cbn [snd].
    destruct (runStep_effect d s w c w1 E)
      as [Kb _ Kc | Ks _ _ _ | _ _ Kb _ _ | b' _ _ Kb _ _ _];
      try congruence.
    destruct (IH w1 b) as [Ib Ic]; [congruence | exact Hrest |].
    split; [exact Ib | congruence].
Qed.

(** A successful [initialize] leaves a handle behind and launches at most
    once. *)
Lemma initialize_returned (d : Driver) (w w1 : World) :
  initialize d w = (Ok tt, w1) ->
  (exists b, browser w1 = Some b)
  /\ (launchCount (calls w1) <= launchCount (calls w) + 1)%nat.
Proof.
  intros H.
  assert (E : runStep d CallInitialize w = (Returned, w1))
    by (cbn [runStep]; rewrite H; reflexivity).
  destruct (runStep_effect d _ w _ w1 E)
    as [Kb _ Kc | Ks _ _ _ | _ Kc _ _ _ | b _ _ _ Kb _ Kc].
  - split; [|lia]. rewrite Kb.
    destruct (browser w) as [b|] eqn:Hb; [eauto|].
    destruct (drv_launch d (calls w) (launchOptions (config w)))
      as [e|b] eqn:Hl.
    + rewrite (initialize_launch_rejected d w e Hb Hl) in H. discriminate.
    + rewrite (initialize_launch_resolved d w b Hb Hl) in H.
      inversion H; subst. discriminate.
  - discriminate.
  - congruence.
  - split; [eauto | lia].
Qed.

Lemma prefix_append (s t : string) : prefix s (s ++ t) = true.
Proof.
  induction s as [|a s IH]; cbn.
  - destruct t; reflexivity.
  - destruct (ascii_dec a a) as [_|N]; [exact IH | congruence].
Qed.

(** What [getPage] does once it is past the handle check. *)
Lemma getPage_configures_page_aux (d : Driver) (w : World) (b : Browser) :
  browser w = Some b ->
  match getPage d w with
  | (Ok p, w') => exists rest, calls w' = (calls w ++ NewPage b :: rest)%list
  | (Throw e, w') =>
      (exists msg,
          e = BrowserError msg
          /\ prefix "Failed to create new page: " msg = true)
      /\ exists rest, calls w' = (calls w ++ NewPage b :: rest)%list
  end.
Proof.
  intros Hb. rewrite (getPage_eq d w b Hb).
  destruct (drv_newPage d (calls w) b) as [e|p].
  - split; [|exists []; reflexivity].
    eexists. split; [reflexivity | apply prefix_append].
  - destruct (firstRejection d _ _) as [[made e]|];
      match goal with
      | |- context [log_calls ?cs w] =>
          destruct (log_calls_fields cs w) as (_ & _ & _ & _ & Fc)
      end.
    + split; [|eauto].
      eexists. split; [reflexivity|].
      apply (prefix_append "Failed to create new page: "
               ("Failed to setup page: " ++ errorText e)).
    + eauto.
Qed.

(** ** The claims *)

(** C1.  [initialize] without a handle launches the browser with the stored
    configuration.  The profile directory and the window size of the launch
    come from the configuration, but the headless flag does not: evaluated on
    a configuration whose headless flag is [false], the one launch made has
    [headless: true]. *)
Theorem initialize_launch_ignores_headless :
  let w0 := constructor sampleServerConfig in
  headless (config w0) = false
  /\ browser w0 = None
  /\ calls (snd (initialize steadyDriver w0)) =
       [ Launch
           {| lo_headless := true;
              lo_channel := "chrome";
              lo_userDataDir := "/tmp/chrome-profile";
              lo_args :=
                [ "--no-sandbox"; "--disable-setuid-sandbox";
                  "--window-size=1280,800"; "--disable-dev-shm-usage";
                  "--disable-blink-features=AutomationControlled" ];
              lo_defaultViewport :=
                {| vp_width := JsNum 1280; vp_height := JsNum 800 |} |} ].
Proof. cbv zeta. repeat split. Qed.

(** The launch options for any configuration: everything but the headless
    flag and the channel is read from the configuration. *)
Lemma initialize_launch_options (d : Driver) (sc : ServerConfig) :
  exists args,
    calls (snd (initialize d (constructor sc))) =
      [ Launch
          {| lo_headless := true;
             lo_channel := "chrome";
             lo_userDataDir := sc_chromeUserDataDir sc;
             lo_args := args;
             lo_defaultViewport :=
               {| vp_width := sc_windowWidth (sc_browser sc);
                  vp_height := sc_windowHeight (sc_browser sc) |} |} ].
Proof.
  eexists.
  destruct (drv_launch d [] (launchOptions (config (constructor sc))))
    as [e|b] eqn:Hl.
  - rewrite (initialize_launch_rejected d (constructor sc) e eq_refl Hl).
    reflexivity.
  - rewrite (initialize_launch_resolved d (constructor sc) b eq_refl Hl).
    reflexivity.
Qed.

(** C2.  After any sequence of calls and driver events in which no
    [initialize] returned normally, [getPage] throws a BrowserError whose
    message says "not initialized", and leaves the world as it was: no page
    is created, the driver is not called. *)
Theorem getPage_before_initialize (d : Driver) (sc : ServerConfig)
        (ss : list Step) :
  someInitializeSucceeded (fst (runSteps d ss (constructor sc))) = false ->
  exists msg,
    getPage d (snd (runSteps d ss (constructor sc))) =
      (Throw (BrowserError msg), snd (runSteps d ss (constructor sc)))
    /\ says "not initialized" msg = true.
Proof.
  intros Hno. exists "Browser not initialized". split; [|reflexivity].
  apply getPage_without_handle.
  apply no_initialize_keeps_null; [reflexivity | exact Hno].
Qed.

Lemma getPage_before_initialize_witness :
  let ss := [ CallInitialize; CallClose; EventDisconnected 0;
              CallWaitForSelector 4 "#app" None; CallGetPage ] in
  someInitializeSucceeded
    (fst (runSteps launchFailsOnceDriver ss (constructor sampleServerConfig)))
    = false
  /\ exists msg,
      getPage launchFailsOnceDriver
        (snd (runSteps launchFailsOnceDriver ss
                (constructor sampleServerConfig))) =
        (Throw (BrowserError msg),
         snd (runSteps launchFailsOnceDriver ss
                (constructor sampleServerConfig)))
      /\ says "not initialized" msg = true.
Proof.
  split.
  - reflexivity.
  - apply (getPage_before_initialize launchFailsOnceDriver sampleServerConfig).
    reflexivity.
Defined.

(** C3, as stated: two consecutive [initialize] calls make at most one
    launch in total and the second leaves the handle unchanged.  This fails
    when the first launch is rejected, and when the browser disconnects
    between the two calls: in both runs the driver is asked to launch twice
    and the second call sets a handle that was null. *)
Lemma initialize_twice_counterexample :
  (let w1 := snd (runSteps launchFailsOnceDriver [CallInitialize]
                    (constructor sampleServerConfig)) in
   let w2 := snd (runStep launchFailsOnceDriver CallInitialize w1) in
   ~ (launchCount (calls w2) <= 1 /\ browser w2 = browser w1)%nat)
  /\
  (let w1 := snd (runSteps steadyDriver [CallInitialize; EventDisconnected 0]
                    (constructor sampleServerConfig)) in
   let w2 := snd (runStep steadyDriver CallInitialize w1) in
   ~ (launchCount (calls w2) <= 1 /\ browser w2 = browser w1)%nat).
Proof.
  split; cbv zeta; intros [_ H]; vm_compute in H; discriminate.
Qed.

(** C3, amended.  Once an [initialize] has returned normally, and as long as
    neither [close] nor a disconnect event intervenes, the handle stays the
    same, a further [initialize] returns without calling the driver and
    without changing anything, and at most one launch was made in total. *)
Theorem initialize_idempotent_after_success (d : Driver) (w w1 : World)
        (ss : list Step) :
  initialize d w = (Ok tt, w1) ->
  existsb isCloseOrDisconnect ss = false ->
  browser (snd (runSteps d ss w1)) = browser w1
  /\ initialize d (snd (runSteps d ss w1)) = (Ok tt, snd (runSteps d ss w1))
  /\ (launchCount (calls (snd (runSteps d ss w1)))
      <= launchCount (calls w) + 1)%nat.
Proof.
  intros Hinit Hno.
  destruct (initialize_returned d w w1 Hinit) as [[b Hb] Hc].
  destruct (handle_kept d ss w1 b Hb Hno) as [Kb Kc].
  split; [congruence | split].
  - now apply (initialize_with_handle d _ b).
  - lia.
Qed.

Lemma initialize_idempotent_after_success_witness :
  let w := constructor sampleServerConfig in
  let w1 := snd (initialize steadyDriver w) in
  let ss := [ CallGetPage;
              CallNavigateTo 1 "https://www.instagram.com/" None;
              CallInitialize ] in
  initialize steadyDriver w = (Ok tt, w1)
  /\ existsb isCloseOrDisconnect ss = false
  /\ browser (snd (runSteps steadyDriver ss w1)) = browser w1
  /\ initialize steadyDriver (snd (runSteps steadyDriver ss w1)) =
       (Ok tt, snd (runSteps steadyDriver ss w1))
  /\ (launchCount (calls (snd (runSteps steadyDriver ss w1)))
      <= launchCount (calls w) + 1)%nat.
Proof.
  cbv zeta. split; [reflexivity | split; [reflexivity|]].
  apply (initialize_idempotent_after_success steadyDriver
           (constructor sampleServerConfig)); reflexivity.
Defined.

(** C4.  In any state the service can reach, when the driver fires
    'disconnected' on the browser the service holds, the handle is cleared;
    from then on, through any calls and events among which no [initialize]
    returns normally, [getPage] throws "Browser not initialized". *)
Theorem getPage_after_disconnect (d : Driver) (sc : ServerConfig)
        (ss ss' : list Step) (b : Browser) :
  browser (snd (runSteps d ss (constructor sc))) = Some b ->
  someInitializeSucceeded
    (fst (runSteps d ss'
            (fireDisconnected b (snd (runSteps d ss (constructor sc))))))
    = false ->
  browser (fireDisconnected b (snd (runSteps d ss (constructor sc)))) = None
  /\ exists msg,
      fst (getPage d
             (snd (runSteps d ss'
                     (fireDisconnected b
                        (snd (runSteps d ss (constructor sc)))))))
        = Throw (BrowserError msg)
      /\ says "not initialized" msg = true.
Proof.
  intros Hb Hno.
  assert (Hnull :
    browser (fireDisconnected b (snd (runSteps d ss (constructor sc)))) = None).
  { unfold fireDisconnected.
    rewrite (emitDisconnected_registered _ b DisconnectedHandler).
    - reflexivity.
    - apply (runSteps_registered d ss _ (constructor_registered sc) b Hb). }
  split; [exact Hnull|].
  exists "Browser not initialized". split; [|reflexivity].
  rewrite getPage_without_handle; [reflexivity|].
  now apply no_initialize_keeps_null.
Qed.

Lemma getPage_after_disconnect_witness :
  let w := snd (runSteps steadyDriver [CallInitialize; CallGetPage]
                  (constructor sampleServerConfig)) in
  let ss' := [ CallClose; CallNavigateTo 1 "https://www.instagram.com/" None ] in
  browser w = Some 0%nat
  /\ someInitializeSucceeded
       (fst (runSteps steadyDriver ss' (fireDisconnected 0%nat w))) = false
  /\ browser (fireDisconnected 0%nat w) = None
  /\ exists msg,
      fst (getPage steadyDriver
             (snd (runSteps steadyDriver ss' (fireDisconnected 0%nat w))))
        = Throw (BrowserError msg)
      /\ says "not initialized" msg = true.
Proof.
  cbv zeta. split; [reflexivity | split; [reflexivity|]].
  apply (getPage_after_disconnect steadyDriver sampleServerConfig
           [CallInitialize; CallGetPage]); reflexivity.
Defined.

(** C5.  [waitForSelector] never throws: for every driver, state, page,
    selector and timeout it makes one driver call, the wait for the
    selector with the caller's timeout if one is supplied and truthy and
    with the configured default timeout otherwise, and returns a boolean:
    [true] when that wait resolves and [false] when it is rejected,
    whatever was thrown. *)
Theorem waitForSelector_never_throws (d : Driver) (w : World) (p : Page)
        (selector : string) (t : option JsNumber) :
  let used :=
    match t with
    | Some (JsNum z) =>
        if Z.eqb z 0 then defaultTimeout (config w) else JsNum z
    | Some JsNaN => defaultTimeout (config w)
    | None => defaultTimeout (config w)
    end in
  fst (waitForSelector d p selector t w) =
    Ok (match drv_other d (calls w) (WaitForSelector p selector used) with
        | None => true
        | Some _ => false
        end)
  /\ calls (snd (waitForSelector d p selector t w)) =
       (calls w ++ [WaitForSelector p selector used])%list.
Proof.
  cbv zeta. rewrite waitForSelector_eq. cbn [fst snd calls log_call].
  destruct t as [[|z]|]; cbn [orNumber truthy];
    try (destruct (Z.eqb z 0)); cbn [negb]; split; reflexivity.
Qed.

(** C6.  [close] without a handle returns normally, does not call the
    driver and leaves the whole state as it was. *)
Theorem close_without_handle_is_noop (d : Driver) (w : World) :
  browser w = None ->
  close d w = (Ok tt, w)
  /\ filter isCloseBrowser (calls (snd (close d w))) =
     filter isCloseBrowser (calls w).
Proof.
  intros Hb. rewrite (close_without_handle d w Hb). split; reflexivity.
Qed.

Lemma close_without_handle_is_noop_witness :
  browser (constructor sampleServerConfig) = None
  /\ close stubbornDriver (constructor sampleServerConfig) =
       (Ok tt, constructor sampleServerConfig).
Proof.
  split.
  - reflexivity.
  - apply (close_without_handle_is_noop stubbornDriver
             (constructor sampleServerConfig)).
    reflexivity.
Defined.

(** C7, as stated: [navigateTo] passes the caller-supplied timeout to the
    driver.  With a supplied timeout of 0 and a configured default of 30000
    the driver is not called with 0. *)
Lemma navigateTo_timeout_counterexample :
  let w0 := constructor sampleServerConfig in
  let options := {| waitUntil := None; timeout := Some (JsNum 0) |} in
  calls (snd (navigateTo steadyDriver 1 "https://www.instagram.com/"
                (Some options) w0)) <>
    [ Goto 1 "https://www.instagram.com/"
        {| go_waitUntil := WaitOne networkidle0; go_timeout := JsNum 0 |} ].
Proof. cbv zeta. vm_compute. intros H. discriminate. Qed.

(** C7, amended.  For every page and url, [navigateTo] makes one driver
    call: it loads [url], waiting for the caller's wait condition if one is
    supplied and for network-idle otherwise, with the caller's timeout if
    one is supplied and truthy (neither 0 nor NaN) and with the configured
    default timeout otherwise.  It returns normally when the driver
    resolves; when the driver rejects it throws a BrowserError whose message
    is "Failed to navigate to ", the url, ": " and the driver's error
    text. *)
Theorem navigateTo_wraps_goto (d : Driver) (w : World) (p : Page)
        (url : string) (options : option INavigationOptions) :
  let supplied_wait :=
    match options with Some o => waitUntil o | None => None end in
  let supplied_timeout :=
    match options with Some o => timeout o | None => None end in
  let call :=
    Goto p url
      {| go_waitUntil :=
           match supplied_wait with
           | Some condition => condition
           | None => WaitOne networkidle0
           end;
         go_timeout :=
           match supplied_timeout with
           | Some (JsNum z) =>
               if Z.eqb z 0 then defaultTimeout (config w) else JsNum z
           | Some JsNaN => defaultTimeout (config w)
           | None => defaultTimeout (config w)
           end |} in
  calls (snd (navigateTo d p url options w)) = (calls w ++ [call])%list
  /\ fst (navigateTo d p url options w) =
       match drv_other d (calls w) call with
       | None => Ok tt
       | Some e =>
           Throw (BrowserError
                    ("Failed to navigate to " ++ url ++ ": " ++ errorText e))
       end.
Proof.
  cbv zeta. rewrite navigateTo_eq. cbn [fst snd calls log_call].
  destruct options as [[wu [[|z]|]]|]; cbn [navWaitUntil navTimeout orNumber
    truthy waitUntil timeout]; try (destruct wu); try (destruct (Z.eqb z 0));
    cbn [negb]; split; reflexivity.
Qed.

(** C8.  With a handle [b], [getPage] asks the driver for a new page on [b]
    and then sets, in this order, the configured viewport, the fixed
    user-agent string, the configured default timeout and the fixed
    Accept-Language header.  It returns the page exactly when the driver
    resolves all five calls; otherwise it stops at the rejected call and
    throws a BrowserError whose message starts with
    "Failed to create new page: ". *)
Theorem getPage_configures_page (d : Driver) (w : World) (b : Browser) :
  browser w = Some b ->
  match getPage d w with
  | (Ok p, w') =>
      drv_newPage d (calls w) b = inr p
      /\ firstRejection d (calls w ++ [NewPage b])
           (pageSetupCalls (config w) p) = None
      /\ calls w' =
           (calls w ++
            [ NewPage b;
              SetViewport p {| vp_width := windowWidth (config w);
                               vp_height := windowHeight (config w) |};
              SetUserAgent p
                "Mozilla/5.0 (Macintosh; Intel Mac OS X 10_15_7) AppleWebKit/537.36 (KHTML, like Gecko) Chrome/120.0.0.0 Safari/537.36";
              SetDefaultTimeout p (defaultTimeout (config w));
              SetExtraHTTPHeaders p
                [("Accept-Language", "en-US,en;q=0.9")] ])%list
      /\ browser w' = Some b
  | (Throw e, w') =>
      (exists msg,
          e = BrowserError msg
          /\ prefix "Failed to create new page: " msg = true)
      /\ (exists made,
             calls w' = (calls w ++ NewPage b :: made)%list
             /\ match drv_newPage d (calls w) b with
                | inl _ => made = []
                | inr p =>
                    exists thrown,
                      firstRejection d (calls w ++ [NewPage b])
                        (pageSetupCalls (config w) p) = Some (made, thrown)
                end)
      /\ browser w' = Some b
  end.
Proof.
  intros Hb. rewrite (getPage_eq d w b Hb).
  destruct (drv_newPage d (calls w) b) as [e|p] eqn:Hn.
  - split; [|split].
    + eexists. split; [reflexivity | apply prefix_append].
    + exists []. split; reflexivity.
    + exact Hb.
  - destruct (firstRejection d _ _) as [[made e]|] eqn:E.
    + destruct (log_calls_fields (NewPage b :: made) w)
        as (Fb & _ & _ & _ & Fc).
      split; [|split].
      * eexists. split; [reflexivity|].
        apply (prefix_append "Failed to create new page: "
                 ("Failed to setup page: " ++ errorText e)).
      * exists made. split; [exact Fc | eauto].
      * congruence.
    + destruct (log_calls_fields
                  (NewPage b :: pageSetupCalls (config w) p) w)
        as (Fb & _ & _ & _ & Fc).
      split; [reflexivity | split; [exact E | split; [exact Fc | congruence]]].
Qed.

Lemma getPage_configures_page_witness :
  let w := snd (initialize steadyDriver (constructor sampleServerConfig)) in
  browser w = Some 0%nat
  /\ fst (getPage steadyDriver w) = Ok 1%nat
  /\ calls (snd (getPage steadyDriver w)) =
       (calls w ++
        [ NewPage 0%nat;
          SetViewport 1%nat
            {| vp_width := JsNum 1280; vp_height := JsNum 800 |};
          SetUserAgent 1%nat userAgent;
          SetDefaultTimeout 1%nat (JsNum 30000);
          SetExtraHTTPHeaders 1%nat extraHeaders ])%list.
Proof.
  cbv zeta. split; [reflexivity | split; [reflexivity|]].
  pose proof (getPage_configures_page steadyDriver
                (snd (initialize steadyDriver (constructor sampleServerConfig)))
                0%nat eq_refl) as H.
  vm_compute in H. destruct H as (_ & _ & H & _). exact H.
Defined.

(** C9, as stated: when the driver's close call fails, [close] throws and
    the handle stays set, so the next [getPage] does not throw "Browser not
    initialized".  This fails on a driver whose [browser.close()] emits
    'disconnected' from inside the call and is rejected with what the
    disconnect callback threw: [close] throws, but the callback has cleared
    the handle, and the next [getPage] throws "Browser not initialized". *)
Lemma close_failure_counterexample :
  let d := disconnectingDriver in
  let w := snd (initialize d (constructor sampleServerConfig)) in
  browser w = Some 0%nat
  /\ fst (close d w) =
       Throw (BrowserError
                "Failed to close browser: Browser disconnected unexpectedly")
  /\ ~ (browser (snd (close d w)) = browser w
        /\ fst (getPage d (snd (close d w))) <>
             Throw (BrowserError "Browser not initialized")).
Proof.
  cbv zeta. split; [reflexivity | split; [reflexivity|]].
  intros [H _]. vm_compute in H. discriminate.
Qed.

(** C9, amended.  When the driver rejects [browser.close()] and has not
    emitted 'disconnected' on the browser from inside the call, [close]
    throws the wrapped error and the handle stays set; the service's
    configuration and listeners are untouched.  A [getPage] right after does
    not throw "Browser not initialized": it gets past the handle check and
    asks the driver for a new page on the same browser. *)
Theorem close_failure_keeps_handle (d : Driver) (w : World) (b : Browser)
        (e : Thrown) :
  browser w = Some b ->
  drv_other d (calls w) (CloseBrowser b) = Some e ->
  drv_closeEmits d (calls w) b = false ->
  fst (close d w) =
    Throw (BrowserError ("Failed to close browser: " ++ errorText e))
  /\ browser (snd (close d w)) = Some b
  /\ config (snd (close d w)) = config w
  /\ listeners (snd (close d w)) = listeners w
  /\ fst (getPage d (snd (close d w))) <>
       Throw (BrowserError "Browser not initialized")
  /\ exists rest,
       calls (snd (getPage d (snd (close d w)))) =
         (calls (snd (close d w)) ++ NewPage b :: rest)%list.
Proof.
  intros Hb Hc Hs. rewrite (close_rejected d w b e Hb Hc).
  rewrite (closeEffects_silent d b w Hs). cbn [fst snd].
  set (w1 := log_call (CloseBrowser b) w).
  assert (Hb1 : browser w1 = Some b) by exact Hb.
  repeat (split; [first [reflexivity | exact Hb] |]).
  pose proof (getPage_configures_page_aux d w1 b Hb1) as G.
  destruct (getPage d w1) as [[p|thrown] w2]; cbn [fst snd].
  - split; [discriminate|]. destruct G as [rest G]. eauto.
  - destruct G as [[msg [-> Hp]] [rest G]]. split; [|eauto].
    intros H. inversion H; subst. discriminate.
Qed.

Lemma close_failure_keeps_handle_witness :
  let w := snd (initialize stubbornDriver (constructor sampleServerConfig)) in
  browser w = Some 0%nat
  /\ drv_other stubbornDriver (calls w) (CloseBrowser 0%nat) =
       Some (ErrorObject OtherErrorClass "Protocol error: Target closed")
  /\ drv_closeEmits stubbornDriver (calls w) 0%nat = false
  /\ fst (close stubbornDriver w) =
       Throw (BrowserError
                "Failed to close browser: Protocol error: Target closed")
  /\ browser (snd (close stubbornDriver w)) = Some 0%nat
  /\ fst (getPage stubbornDriver (snd (close stubbornDriver w))) <>
       Throw (BrowserError "Browser not initialized").
Proof.
  cbv zeta.
  split; [reflexivity | split; [reflexivity | split; [reflexivity|]]].
  destruct (close_failure_keeps_handle stubbornDriver
              (snd (initialize stubbornDriver (constructor sampleServerConfig)))
              0%nat
              (ErrorObject OtherErrorClass "Protocol error: Target closed")
              eq_refl eq_refl eq_refl) as (H1 & H2 & _ & _ & H5 & _).
  split; [exact H1 | split; [exact H2 | exact H5]].
Defined.

(** C10.  A caller-supplied timeout of 0 is replaced by the configured
    default: with timeout 0, [navigateTo] calls [goto] and [waitForSelector]
    calls the driver's wait with the default timeout of the configuration. *)
Theorem zero_timeout_falls_back_to_default (d : Driver) (w : World)
        (p : Page) (url selector : string) (wu : option WaitUntil) :
  (exists condition,
      calls (snd (navigateTo d p url
                    (Some {| waitUntil := wu; timeout := Some (JsNum 0) |})
                    w)) =
        (calls w ++
         [ Goto p url {| go_waitUntil := condition;
                         go_timeout := defaultTimeout (config w) |} ])%list)
  /\ calls (snd (waitForSelector d p selector (Some (JsNum 0)) w)) =
       (calls w ++
        [ WaitForSelector p selector (defaultTimeout (config w)) ])%list.
Proof.
  split.
  - eexists. rewrite navigateTo_eq. reflexivity.
  - rewrite waitForSelector_eq. reflexivity.
Qed.


(** ** Further properties of the service *)

Lemma runStep_snd (d : Driver) (s : Step) (w : World) :
  snd (runStep d s w) =
    match s with
    | CallInitialize => snd (initialize d w)
    | CallGetPage => snd (getPage d w)
    | CallClose => snd (close d w)
    | CallNavigateTo p u o => snd (navigateTo d p u o w)
    | CallWaitForSelector p sel t => snd (waitForSelector d p sel t w)
    | EventDisconnected b => fireDisconnected b w
    end.
Proof.
  destruct s; cbn [runStep];
    try match goal with
        | |- snd (let (_, _) := ?m in _) = _ => destruct m
        end; reflexivity.
Qed.

Lemma runStep_fst (d : Driver) (s : Step) (w : World) :
  fst (runStep d s w) =
    match s with
    | CallInitialize => completion (fst (initialize d w))
    | CallGetPage => completion (fst (getPage d w))
    | CallClose => completion (fst (close d w))
    | CallNavigateTo p u o => completion (fst (navigateTo d p u o w))
    | CallWaitForSelector p sel t =>
        completion (fst (waitForSelector d p sel t w))
    | EventDisconnected b => Returned
    end.
Proof.
  destruct s; cbn [runStep];
    try match goal with
        | |- fst (let (_, _) := ?m in _) = _ => destruct m
        end; reflexivity.
Qed.

(** A property kept by every step is kept by every run. *)
Lemma runSteps_invariant (d : Driver) (P : World -> Prop) :
  (forall s w, P w -> P (snd (runStep d s w))) ->
  forall ss w, P w -> P (snd (runSteps d ss w)).
Proof.
  intros Hstep. induction ss as [|s ss IH]; intros w Hw.
  - exact Hw.
  - rewrite runSteps_cons. cbn [snd]. apply IH, Hstep, Hw.
Qed.

(** [a || b] is truthy when [b] is. *)
Lemma orNumber_truthy (a : option JsNumber) (b : JsNumber) :
  truthy b = true -> truthy (orNumber a b) = true.
Proof.
  intros Hb. destruct a as [n|]; cbn [orNumber]; [|exact Hb].
  destruct (truthy n) eqn:Hn; assumption.
Qed.

Lemma pageSetupCalls_ok (w : World) (p : Page) :
  Forall (stepCallOk w) (pageSetupCalls (config w) p).
Proof. repeat constructor. Qed.

(** What a step leaves alone, and the driver calls it adds. *)
Lemma runStep_frame (d : Driver) (s : Step) (w : World) :
  config (snd (runStep d s w)) = config w
  /\ exists new,
       calls (snd (runStep d s w)) = (calls w ++ new)%list
       /\ Forall (stepCallOk w) new.
Proof.
  rewrite runStep_snd. destruct s.
  - (* initialize *)
    case_eq (browser w); [intros b Hb | intros Hb].
    + rewrite (initialize_with_handle d w b Hb). cbn [snd].
      split; [reflexivity|].
      exists []. rewrite app_nil_r. split; [reflexivity | constructor].
    + destruct (drv_launch d (calls w) (launchOptions (config w)))
        as [e|b] eqn:Hl;
        [ rewrite (initialize_launch_rejected d w e Hb Hl)
        | rewrite (initialize_launch_resolved d w b Hb Hl) ];
        cbn [snd]; (split; [reflexivity|]);
        exists [Launch (launchOptions (config w))];
        (split; [reflexivity | repeat constructor; assumption]).
  - (* getPage *)
    case_eq (browser w); [intros b Hb | intros Hb].
    + rewrite (getPage_eq d w b Hb).
      destruct (drv_newPage d (calls w) b) as [e|p].
      * cbn [snd]. split; [reflexivity|].
        exists [NewPage b]. split; [reflexivity | repeat constructor; exact Hb].
      * destruct (firstRejection d _ _) as [[made e]|] eqn:E; cbn [snd];
          match goal with
          | |- config (log_calls ?cs w) = _ /\ _ =>
              destruct (log_calls_fields cs w) as (_ & Fg & _ & _ & Fc)
          end;
          (split; [exact Fg|]);
          eexists; (split; [exact Fc|]); constructor; try exact Hb.
        -- destruct (firstRejection_prefix _ _ _ _ _ E) as (rest & Hp & _).
           pose proof (pageSetupCalls_ok w p) as Hok. rewrite Hp in Hok.
           apply Forall_app in Hok. tauto.
        -- apply pageSetupCalls_ok.
    + rewrite (getPage_without_handle d w Hb). cbn [snd].
      split; [reflexivity|].
      exists []. rewrite app_nil_r. split; [reflexivity | constructor].
  - (* close *)
    case_eq (browser w); [intros b Hb | intros Hb].
    + destruct (drv_other d (calls w) (CloseBrowser b)) as [e|] eqn:Hc;
        [ rewrite (close_rejected d w b e Hb Hc)
        | rewrite (close_resolved d w b Hb Hc) ];
        cbn [snd];
        (destruct (closeEffects_cases d b w) as [->|[_ ->]]);
        (split; [reflexivity|]);
        exists [CloseBrowser b];
        (split; [reflexivity | repeat constructor; exact Hb]).
    + rewrite (close_without_handle d w Hb). cbn [snd].
      split; [reflexivity|].
      exists []. rewrite app_nil_r. split; [reflexivity | constructor].
  - (* navigateTo *)
    rewrite navigateTo_eq. cbn [snd].
    split; [reflexivity|].
    eexists. split; [reflexivity|]. constructor; [|constructor].
    cbn [stepCallOk go_timeout]. apply orNumber_truthy.
  - (* waitForSelector *)
    rewrite waitForSelector_eq. cbn [snd].
    split; [reflexivity|].
    eexists. split; [reflexivity|]. constructor; [|constructor].
    cbn [stepCallOk]. apply orNumber_truthy.
  - (* disconnected *)
    unfold fireDisconnected.
    destruct (emitDisconnected_cases (listeners w) b w) as [->| ->].
    + split; [reflexivity|].
      exists []. rewrite app_nil_r. split; [reflexivity | constructor].
    + split; [reflexivity|].
      exists []. rewrite app_nil_r. split; [reflexivity | constructor].
Qed.

(** Listeners are never removed. *)
Lemma runStep_listeners_incl (d : Driver) (s : Step) (w : World) :
  incl (listeners w) (listeners (snd (runStep d s w))).
Proof.
  destruct (runStep d s w) as [c w1] eqn:E. cbn [snd].
  destruct (runStep_effect d s w c w1 E)
    as [_ Kl _ | _ _ Kl _ | _ _ _ _ Kl | b _ _ _ _ Kl _];
    rewrite Kl; try apply incl_refl.
  apply incl_appl, incl_refl.
Qed.

Lemma runSteps_listeners_incl (d : Driver) (ss : list Step) :
  forall w, incl (listeners w) (listeners (snd (runSteps d ss w))).
Proof.
  induction ss as [|s ss IH]; intros w.
  - apply incl_refl.
  - rewrite runSteps_cons. cbn [snd].
    eapply incl_tran; [apply runStep_listeners_incl | apply IH].
Qed.

(** Every driver call of a run was made from a state with the configuration
    the run started with. *)
Lemma runSteps_calls_ok (d : Driver) (ss : list Step) :
  forall w,
    config (snd (runSteps d ss w)) = config w
    /\ exists new,
         calls (snd (runSteps d ss w)) = (calls w ++ new)%list
         /\ Forall (fun c => exists wi,
                        config wi = config w /\ stepCallOk wi c) new.
Proof.
  induction ss as [|s ss IH]; intros w.
  - split; [reflexivity|]. exists []. rewrite app_nil_r.
    split; [reflexivity | constructor].
  - rewrite runSteps_cons. cbn [snd].
    destruct (runStep_frame d s w) as (Hg & new1 & Hc1 & Hok1).
    destruct (IH (snd (runStep d s w))) as (Hg2 & new2 & Hc2 & Hok2).
    split; [congruence|].
    exists (new1 ++ new2)%list. split.
    + rewrite Hc2, Hc1, app_assoc. reflexivity.
    + apply Forall_app. split.
      * eapply Forall_impl; [|exact Hok1]. intros c Hc. exists w. auto.
      * eapply Forall_impl; [|exact Hok2].
        intros c (wi & Hwi & Hc). exists wi. split; [congruence | exact Hc].
Qed.

(** X1.  Whatever a method throws is a BrowserError: [getPage] without a
    handle throws "Browser not initialized", and every other failure carries
    the message of the failing operation followed by some error text.
    [waitForSelector] and driver events never throw to a caller. *)
Theorem thrown_errors_are_wrapped (d : Driver) (s : Step) (w : World)
        (e : Thrown) :
  fst (runStep d s w) = Threw e ->
  canThrow s = true
  /\ exists msg,
       e = BrowserError msg
       /\ (s = CallGetPage /\ browser w = None
           /\ msg = "Browser not initialized"
           \/ exists text, msg = failureMessage s text).
Proof.
  rewrite runStep_fst. destruct s; intros H.
  - (* initialize *)
    split; [reflexivity|].
    case_eq (browser w); [intros b Hb | intros Hb].
    + rewrite (initialize_with_handle d w b Hb) in H. discriminate.
    + destruct (drv_launch d (calls w) (launchOptions (config w)))
        as [e0|b] eqn:Hl.
      * rewrite (initialize_launch_rejected d w e0 Hb Hl) in H.
        cbn [fst completion] in H. inversion H; subst.
        eexists. split; [reflexivity|]. right. exists (errorText e0).
        reflexivity.
      * rewrite (initialize_launch_resolved d w b Hb Hl) in H. discriminate.
  - (* getPage *)
    split; [reflexivity|].
    case_eq (browser w); [intros b Hb | intros Hb].
    + rewrite (getPage_eq d w b Hb) in H.
      destruct (drv_newPage d (calls w) b) as [e0|p].
      * cbn [fst completion] in H. inversion H; subst.
        eexists. split; [reflexivity|]. right. exists (errorText e0).
        reflexivity.
      * destruct (firstRejection d _ _) as [[made e0]|];
          cbn [fst completion] in H; [|discriminate].
        inversion H; subst.
        eexists. split; [reflexivity|]. right.
        exists ("Failed to setup page: " ++ errorText e0). reflexivity.
    + rewrite (getPage_without_handle d w Hb) in H.
      cbn [fst completion] in H. inversion H; subst.
      eexists. split; [reflexivity|]. left. auto.
  - (* close *)
    split; [reflexivity|].
    case_eq (browser w); [intros b Hb | intros Hb].
    + destruct (drv_other d (calls w) (CloseBrowser b)) as [e0|] eqn:Hc.
      * rewrite (close_rejected d w b e0 Hb Hc) in H.
        cbn [fst completion] in H. inversion H; subst.
        eexists. split; [reflexivity|]. right. exists (errorText e0).
        reflexivity.
      * rewrite (close_resolved d w b Hb Hc) in H. discriminate.
    + rewrite (close_without_handle d w Hb) in H. discriminate.
  - (* navigateTo *)
    split; [reflexivity|].
    rewrite navigateTo_eq in H. cbn [fst] in H.
    destruct (drv_other d (calls w) _) as [e0|]; [|discriminate].
    cbn [completion] in H. inversion H; subst.
    eexists. split; [reflexivity|]. right. exists (errorText e0).
    reflexivity.
  - (* waitForSelector *)
    rewrite waitForSelector_eq in H. discriminate.
  - discriminate.
Qed.

Lemma thrown_errors_are_wrapped_witness :
  let w := snd (initialize stubbornDriver (constructor sampleServerConfig)) in
  fst (runStep stubbornDriver CallClose w) =
    Threw (BrowserError
             "Failed to close browser: Protocol error: Target closed")
  /\ exists msg,
       BrowserError "Failed to close browser: Protocol error: Target closed"
         = BrowserError msg
       /\ (CallClose = CallGetPage /\ browser w = None
           /\ msg = "Browser not initialized"
           \/ exists text, msg = failureMessage CallClose text).
Proof.
  cbv zeta. split; [reflexivity|].
  apply (thrown_errors_are_wrapped stubbornDriver CallClose
           (snd (initialize stubbornDriver (constructor sampleServerConfig)))).
  reflexivity.
Defined.

(** X2.  No call and no driver event changes the configuration: after any
    run it is the one the service started with. *)
Theorem config_never_changes (d : Driver) (ss : list Step) (w : World) :
  config (snd (runSteps d ss w)) = config w.
Proof. apply runSteps_calls_ok. Qed.

(** X3.  The disconnect callback is never unregistered and clears whatever
    handle the service holds: once the service has held browser [b], a
    'disconnected' event of [b] after any further calls and events, among
    them a close and a new launch, leaves the service without a handle. *)
Theorem late_disconnect_clears_handle (d : Driver) (sc : ServerConfig)
        (ss0 ss : list Step) (b : Browser) :
  browser (snd (runSteps d ss0 (constructor sc))) = Some b ->
  browser
    (fireDisconnected b
       (snd (runSteps d ss (snd (runSteps d ss0 (constructor sc))))))
    = None.
Proof.
  intros Hb. unfold fireDisconnected.
  rewrite (emitDisconnected_registered _ b DisconnectedHandler).
  - reflexivity.
  - apply runSteps_listeners_incl.
    apply (runSteps_registered d ss0 _ (constructor_registered sc) b Hb).
Qed.

Lemma late_disconnect_clears_handle_witness :
  let w := snd (runSteps steadyDriver [CallInitialize]
                  (constructor sampleServerConfig)) in
  let w' := snd (runSteps steadyDriver [CallClose; CallInitialize] w) in
  browser w = Some 0%nat
  /\ browser w' = Some 2%nat
  /\ browser (fireDisconnected 0%nat w') = None.
Proof.
  cbv zeta. split; [reflexivity | split; [reflexivity|]].
  apply (late_disconnect_clears_handle steadyDriver sampleServerConfig
           [CallInitialize] [CallClose; CallInitialize] 0%nat).
  reflexivity.
Defined.

(** X4.  A [close] that the driver resolves makes one close call on the
    handle held and returns the service to its uninitialized state: the
    handle is null, a second [close] does nothing, and [getPage] throws
    "Browser not initialized". *)
Theorem close_returns_to_uninitialized (d : Driver) (w : World)
        (b : Browser) :
  browser w = Some b ->
  drv_other d (calls w) (CloseBrowser b) = None ->
  fst (close d w) = Ok tt
  /\ browser (snd (close d w)) = None
  /\ calls (snd (close d w)) = (calls w ++ [CloseBrowser b])%list
  /\ close d (snd (close d w)) = (Ok tt, snd (close d w))
  /\ getPage d (snd (close d w)) =
       (Throw (BrowserError "Browser not initialized"), snd (close d w)).
Proof.
  intros Hb Hc. rewrite (close_resolved d w b Hb Hc). cbn [fst snd].
  split; [reflexivity | split; [reflexivity | split]].
  { destruct (closeEffects_cases d b w) as [->|[_ ->]]; reflexivity. }
  split.
  - now apply close_without_handle.
  - now apply getPage_without_handle.
Qed.

Lemma close_returns_to_uninitialized_witness :
  let w := snd (initialize steadyDriver (constructor sampleServerConfig)) in
  browser w = Some 0%nat
  /\ fst (close steadyDriver w) = Ok tt
  /\ browser (snd (close steadyDriver w)) = None
  /\ close steadyDriver (snd (close steadyDriver w)) =
       (Ok tt, snd (close steadyDriver w)).
Proof.
  cbv zeta. split; [reflexivity|].
  destruct (close_returns_to_uninitialized steadyDriver
              (snd (initialize steadyDriver (constructor sampleServerConfig)))
              0%nat eq_refl eq_refl) as (H1 & H2 & _ & H4 & _).
  split; [exact H1 | split; [exact H2 | exact H4]].
Defined.

(** X5.  Every launch the service ever asks for, the first one and every
    relaunch after a close, a disconnect or a failed launch, carries the
    same options: those built from the configuration it was constructed
    with, and [headless: true]. *)
Theorem every_launch_uses_construction_config (d : Driver)
        (sc : ServerConfig) (ss : list Step) (o : LaunchOptions) :
  In (Launch o) (calls (snd (runSteps d ss (constructor sc)))) ->
  o = launchOptions (config (constructor sc))
  /\ lo_headless o = true
  /\ lo_userDataDir o = sc_chromeUserDataDir sc
  /\ lo_defaultViewport o =
       {| vp_width := sc_windowWidth (sc_browser sc);
          vp_height := sc_windowHeight (sc_browser sc) |}.
Proof.
  intros Hin.
  destruct (runSteps_calls_ok d ss (constructor sc)) as (_ & new & Hc & Hok).
  rewrite Hc in Hin. cbn [calls constructor app] in Hin.
  rewrite Forall_forall in Hok.
  destruct (Hok _ Hin) as (wi & Hwi & Ho & _).
  assert (E : o = launchOptions (config (constructor sc))) by congruence.
  split; [exact E|]. rewrite E. repeat split.
Qed.

Lemma every_launch_uses_construction_config_witness :
  let ss := [CallInitialize; CallClose; CallInitialize] in
  let o := launchOptions (config (constructor sampleServerConfig)) in
  In (Launch o)
     (calls (snd (runSteps steadyDriver ss (constructor sampleServerConfig))))
  /\ lo_headless o = true.
Proof.
  cbv zeta. split.
  - left. reflexivity.
  - apply (every_launch_uses_construction_config steadyDriver
             sampleServerConfig [CallInitialize; CallClose; CallInitialize]).
    left. reflexivity.
Defined.

(** X6.  The service creates pages and closes browsers only on browsers it
    launched itself: every [newPage] and [close] call of a run is made on a
    browser on which [initialize] registered the disconnect callback. *)
Theorem browser_calls_only_on_launched (d : Driver) (sc : ServerConfig)
        (ss : list Step) (c : DriverCall) (b : Browser) :
  In c (calls (snd (runSteps d ss (constructor sc)))) ->
  callBrowser c = Some b ->
  In (b, DisconnectedHandler)
     (listeners (snd (runSteps d ss (constructor sc)))).
Proof.
  revert c b.
  apply (runSteps_invariant d
           (fun w => registered w
                     /\ forall c b, In c (calls w) ->
                                    callBrowser c = Some b ->
                                    In (b, DisconnectedHandler) (listeners w))).
  - intros s w [R Hcalls]. split; [now apply runStep_registered|].
    intros c b Hin Hcb.
    destruct (runStep_frame d s w) as (_ & new & Hc & Hok).
    rewrite Hc in Hin. apply in_app_or in Hin.
    apply (runStep_listeners_incl d s w).
    destruct Hin as [Hold|Hnew].
    + now apply (Hcalls c).
    + rewrite Forall_forall in Hok. specialize (Hok c Hnew).
      destruct c; cbn [callBrowser] in Hcb; try discriminate;
        inversion Hcb; subst; apply R; exact Hok.
  - split; [apply constructor_registered|]. intros c b [].
Qed.

Lemma browser_calls_only_on_launched_witness :
  let w := snd (runSteps steadyDriver [CallInitialize; CallGetPage; CallClose]
                  (constructor sampleServerConfig)) in
  In (CloseBrowser 0%nat) (calls w)
  /\ In (0%nat, DisconnectedHandler) (listeners w).
Proof.
  cbv zeta.
  assert (H : In (CloseBrowser 0%nat)
                (calls (snd (runSteps steadyDriver
                               [CallInitialize; CallGetPage; CallClose]
                               (constructor sampleServerConfig))))).
  { vm_compute. do 6 right. left. reflexivity. }
  split; [exact H|].
  exact (browser_calls_only_on_launched steadyDriver sampleServerConfig
           [CallInitialize; CallGetPage; CallClose] (CloseBrowser 0%nat)
           0%nat H eq_refl).
Defined.

(** X7.  When the configured default timeout is truthy (neither 0 nor NaN),
    no caller can make the driver wait without a timeout: every [goto] and
    every selector wait of a run carries a truthy timeout, whatever timeouts
    the callers supplied. *)
Theorem waits_never_without_timeout (d : Driver) (sc : ServerConfig)
        (ss : list Step) (c : DriverCall) (t : JsNumber) :
  truthy (sc_defaultTimeout (sc_browser sc)) = true ->
  In c (calls (snd (runSteps d ss (constructor sc)))) ->
  callTimeout c = Some t ->
  truthy t = true.
Proof.
  intros Hd Hin Ht.
  destruct (runSteps_calls_ok d ss (constructor sc)) as (_ & new & Hc & Hok).
  rewrite Hc in Hin. cbn [calls constructor app] in Hin.
  rewrite Forall_forall in Hok.
  destruct (Hok _ Hin) as (wi & Hwi & Hcall).
  destruct c; cbn [callTimeout] in Ht; try discriminate;
    inversion Ht; subst; cbn [stepCallOk] in Hcall;
    apply Hcall; rewrite Hwi; exact Hd.
Qed.

Lemma waits_never_without_timeout_witness :
  let ss := [ CallWaitForSelector 5 "#feed" (Some (JsNum 0)) ] in
  truthy (sc_defaultTimeout (sc_browser sampleServerConfig)) = true
  /\ In (WaitForSelector 5 "#feed" (JsNum 30000))
        (calls (snd (runSteps steadyDriver ss
                       (constructor sampleServerConfig))))
  /\ truthy (JsNum 30000) = true.
Proof.
  cbv zeta. split; [reflexivity|].
  assert (H : In (WaitForSelector 5 "#feed" (JsNum 30000))
                (calls (snd (runSteps steadyDriver
                               [CallWaitForSelector 5 "#feed"
                                  (Some (JsNum 0))]
                               (constructor sampleServerConfig))))).
  { left. reflexivity. }
  split; [exact H|].
  exact (waits_never_without_timeout steadyDriver sampleServerConfig
           [CallWaitForSelector 5 "#feed" (Some (JsNum 0))]
           (WaitForSelector 5 "#feed" (JsNum 30000)) (JsNum 30000)
           eq_refl H eq_refl).
Defined.

(** X8.  [navigateTo] and [waitForSelector] never look at the browser
    handle: with any other handle, or none, they make the same driver call
    and end the same way, and they leave the handle, the listeners and the
    configuration as they were. *)
Theorem page_operations_ignore_handle (d : Driver) (w : World)
        (h : option Browser) (p : Page) (url selector : string)
        (options : option INavigationOptions) (t : option JsNumber) :
  (fst (navigateTo d p url options (set_browser h w)) =
     fst (navigateTo d p url options w)
   /\ calls (snd (navigateTo d p url options (set_browser h w))) =
        calls (snd (navigateTo d p url options w))
   /\ browser (snd (navigateTo d p url options w)) = browser w
   /\ listeners (snd (navigateTo d p url options w)) = listeners w
   /\ config (snd (navigateTo d p url options w)) = config w)
  /\
  (fst (waitForSelector d p selector t (set_browser h w)) =
     fst (waitForSelector d p selector t w)
   /\ calls (snd (waitForSelector d p selector t (set_browser h w))) =
        calls (snd (waitForSelector d p selector t w))
   /\ browser (snd (waitForSelector d p selector t w)) = browser w
   /\ listeners (snd (waitForSelector d p selector t w)) = listeners w
   /\ config (snd (waitForSelector d p selector t w)) = config w).
Proof.
  rewrite !navigateTo_eq, !waitForSelector_eq. cbn [fst snd].
  split; repeat (split; try reflexivity).
Qed.

(** X9.  [initialize] throws only when there is no handle and the driver
    rejects the launch.  It then throws "Failed to initialize browser: "
    followed by the driver's error text, the handle is still null, and no
    disconnect callback has been registered. *)
Theorem initialize_failure (d : Driver) (w : World) (e : Thrown) :
  fst (initialize d w) = Throw e ->
  browser w = None
  /\ (exists rejected,
        drv_launch d (calls w) (launchOptions (config w)) = inl rejected
        /\ e = BrowserError
                 ("Failed to initialize browser: " ++ errorText rejected))
  /\ browser (snd (initialize d w)) = None
  /\ listeners (snd (initialize d w)) = listeners w
  /\ calls (snd (initialize d w)) =
       (calls w ++ [Launch (launchOptions (config w))])%list.
Proof.
  intros H.
  case_eq (browser w); [intros b Hb | intros Hb].
  - rewrite (initialize_with_handle d w b Hb) in H. discriminate.
  - destruct (drv_launch d (calls w) (launchOptions (config w)))
      as [e0|b] eqn:Hl.
    + rewrite (initialize_launch_rejected d w e0 Hb Hl) in *.
      cbn [fst snd] in *. inversion H; subst.
      split; [reflexivity | split; [eauto|]].
      split; [exact Hb | split; reflexivity].
    + rewrite (initialize_launch_resolved d w b Hb Hl) in H. discriminate.
Qed.

Lemma initialize_failure_witness :
  let w := constructor sampleServerConfig in
  fst (initialize launchFailsOnceDriver w) =
    Throw (BrowserError
             "Failed to initialize browser: Could not find Chrome")
  /\ browser (snd (initialize launchFailsOnceDriver w)) = None
  /\ listeners (snd (initialize launchFailsOnceDriver w)) = [].
Proof.
  cbv zeta. split; [reflexivity|].
  destruct (initialize_failure launchFailsOnceDriver
              (constructor sampleServerConfig)
              (BrowserError
                 "Failed to initialize browser: Could not find Chrome")
              eq_refl) as (_ & _ & H3 & H4 & _).
  split; [exact H3 | exact H4].
Defined.

(** X10.  The error thrown inside the disconnect callback can reach the
    caller of [close]: in any reachable state with a handle, when the driver
    emits 'disconnected' on the held browser from inside [browser.close()]
    and rejects the call, [close] throws the wrapped rejection, and by then
    the callback has run: it threw "Browser disconnected unexpectedly" into
    the emitter and cleared the handle, so the next [getPage] throws
    "Browser not initialized". *)
Theorem disconnect_inside_close (d : Driver) (sc : ServerConfig)
        (ss : list Step) (b : Browser) (e : Thrown) :
  browser (snd (runSteps d ss (constructor sc))) = Some b ->
  drv_closeEmits d (calls (snd (runSteps d ss (constructor sc)))) b = true ->
  drv_other d (calls (snd (runSteps d ss (constructor sc)))) (CloseBrowser b)
    = Some e ->
  fst (close d (snd (runSteps d ss (constructor sc)))) =
    Throw (BrowserError ("Failed to close browser: " ++ errorText e))
  /\ browser (snd (close d (snd (runSteps d ss (constructor sc))))) = None
  /\ listenerErrors (snd (close d (snd (runSteps d ss (constructor sc))))) =
       (listenerErrors (snd (runSteps d ss (constructor sc)))
          ++ [BrowserError "Browser disconnected unexpectedly"])%list
  /\ getPage d (snd (close d (snd (runSteps d ss (constructor sc))))) =
       (Throw (BrowserError "Browser not initialized"),
        snd (close d (snd (runSteps d ss (constructor sc))))).
Proof.
  set (w := snd (runSteps d ss (constructor sc))).
  intros Hb He Hc.
  assert (R : In (b, DisconnectedHandler) (listeners w))
    by (apply (runSteps_registered d ss _ (constructor_registered sc) b Hb)).
  rewrite (close_rejected d w b e Hb Hc).
  rewrite (closeEffects_emitted d b DisconnectedHandler w He R).
  cbn [fst snd].
  split; [reflexivity | split; [reflexivity | split; [reflexivity|]]].
  now apply getPage_without_handle.
Qed.

Lemma disconnect_inside_close_witness :
  let d := disconnectingDriver in
  let w := snd (runSteps d [CallInitialize; CallGetPage]
                  (constructor sampleServerConfig)) in
  browser w = Some 0%nat
  /\ drv_closeEmits d (calls w) 0%nat = true
  /\ fst (close d w) =
       Throw (BrowserError
                "Failed to close browser: Browser disconnected unexpectedly")
  /\ browser (snd (close d w)) = None
  /\ fst (getPage d (snd (close d w))) =
       Throw (BrowserError "Browser not initialized").
Proof.
  cbv zeta. split; [reflexivity | split; [reflexivity|]].
  destruct (disconnect_inside_close disconnectingDriver sampleServerConfig
              [CallInitialize; CallGetPage] 0%nat
              (BrowserError "Browser disconnected unexpectedly")
              eq_refl eq_refl eq_refl) as (H1 & H2 & _ & H4).
  split; [exact H1 | split; [exact H2|]].
  rewrite H4. reflexivity.
Defined.

(** X11.  The handle the service holds is always the browser of its most
    recent successful launch: in every reachable state with a handle, the
    last disconnect callback registered is the one on that handle. *)
Theorem handle_is_latest_launch (d : Driver) (sc : ServerConfig)
        (ss : list Step) (b : Browser) :
  browser (snd (runSteps d ss (constructor sc))) = Some b ->
  exists earlier,
    listeners (snd (runSteps d ss (constructor sc))) =
      (earlier ++ [(b, DisconnectedHandler)])%list.
Proof.
  revert b.
  apply (runSteps_invariant d
           (fun w => forall b, browser w = Some b ->
                               exists earlier,
                                 listeners w =
                                   (earlier ++ [(b, DisconnectedHandler)])%list)).
  - intros s w Hw b Hb.
    destruct (runStep d s w) as [c w1] eqn:E. cbn [snd] in *.
    destruct (runStep_effect d s w c w1 E)
      as [Kb Kl _ | _ Kb _ _ | _ _ _ Kb _ | b' _ _ _ Kb Kl _].
    + rewrite Kl. apply Hw. congruence.
    + congruence.
    + congruence.
    + exists (listeners w). rewrite Kl. congruence.
  - intros b Hb. discriminate.
Qed.

Lemma handle_is_latest_launch_witness :
  let w := snd (runSteps steadyDriver
                  [CallInitialize; CallClose; CallInitialize; CallGetPage]
                  (constructor sampleServerConfig)) in
  browser w = Some 2%nat
  /\ exists earlier,
       listeners w = (earlier ++ [(2%nat, DisconnectedHandler)])%list.
Proof.
  cbv zeta. split; [reflexivity|].
  apply (handle_is_latest_launch steadyDriver sampleServerConfig
           [CallInitialize; CallClose; CallInitialize; CallGetPage] 2%nat).
  reflexivity.
Defined.
